(** * Income ledger: record store, statistics and spending forecast

    A shallow embedding of [app/models.py] and [app/database.py].

    - Amounts are Python floats, i.e. IEEE 754 binary64 values: they are
      modelled by Rocq's primitive floats, whose operations are the same
      binary64 operations.
    - A [datetime] is a naive Python datetime, the kind [database.py] makes
      with [datetime.now()]. It is kept as the proleptic Gregorian day
      number of its date and the microseconds elapsed since midnight; year,
      month and day are recovered with CPython's own conversion, and the
      limits of the type (years 1 to 9999) are those of CPython.
    - A [timestamp] is a datetime as a record carries it: the same wall-clock
      fields and, when the datetime is aware, its UTC offset. The form of the
      application enters dates at UTC+8.
    - The SQLite tables are lists of rows; every query is a function of the
      table, every statement that writes returns the new database. A TEXT
      column holding the ISO text of a datetime is kept as the timestamp
      that [isoformat] wrote and [fromisoformat] reads back; the comparisons
      of the queries are those of the texts, and [DATE()] and [strftime]
      read a text as the engine does, in UTC. The text YYYY-MM-DD of a day
      is kept as the day number.
    - The wall clock is a parameter [now] of every function that reads it.
    - A Python exception is a value [Raise e] of the result type. *)

From Stdlib Require Import ZArith Lia ZifyBool Bool List Floats.
From stdpp Require Import gmap strings list sorting.
From Equations Require Import Equations.
From Equations.Prop Require Import Logic.

Local Open Scope Z_scope.

(** ** Exceptions *)

Inductive exn : Type :=
| ValueError
| OverflowError
| IntegrityError
| TypeError.

Inductive result (A : Type) : Type :=
| Ok (a : A)
| Raise (e : exn).

Arguments Ok {A} a.
Arguments Raise {A} e.

(** Sequencing: the first exception raised ends the computation. It is
    written [x ← r; k], stdpp's notation for a monadic bind. *)
#[global] Instance result_ret : MRet result := fun A a => Ok a.

#[global] Instance result_bind : MBind result := fun A B k r =>
  match r with
  | Ok a => k a
  | Raise e => Raise e
  end.

(** * The calendar of Python's [datetime] *)

Module Calendar.

Definition MINYEAR : Z := 1.
Definition MAXYEAR : Z := 9999.

(** Day number of 9999-12-31, [date.max.toordinal()]. *)
Definition MAXORDINAL : Z := 3652059.

Definition is_leap (year : Z) : bool :=
  (year mod 4 =? 0) && (negb (year mod 100 =? 0) || (year mod 400 =? 0)).

Definition days_before_year (year : Z) : Z :=
  let y := year - 1 in y * 365 + y / 4 - y / 100 + y / 400.

Definition DAYS_IN_MONTH (month : Z) : Z :=
  match month with
  | 1 => 31 | 2 => 28 | 3 => 31 | 4 => 30 | 5 => 31 | 6 => 30
  | 7 => 31 | 8 => 31 | 9 => 30 | 10 => 31 | 11 => 30 | 12 => 31
  | _ => 0
  end.

Definition DAYS_BEFORE_MONTH (month : Z) : Z :=
  match month with
  | 1 => 0 | 2 => 31 | 3 => 59 | 4 => 90 | 5 => 120 | 6 => 151
  | 7 => 181 | 8 => 212 | 9 => 243 | 10 => 273 | 11 => 304 | 12 => 334
  | _ => 0
  end.

Definition days_in_month (year month : Z) : Z :=
  if (month =? 2) && is_leap year then 29 else DAYS_IN_MONTH month.

Definition days_before_month (year month : Z) : Z :=
  DAYS_BEFORE_MONTH month + (if (2 <? month) && is_leap year then 1 else 0).

(** [_ymd2ord]: year, month, day to day number, 0001-01-01 being day 1. *)
Definition ymd2ord (year month day : Z) : Z :=
  days_before_year year + days_before_month year month + day.

(** The month and day of the [n]-th day (from 0) of a year, the second half
    of [_ord2ymd]: an estimate of the month, corrected when too large. *)
Definition month_day (leapyear : bool) (n : Z) : Z * Z :=
  let month := Z.shiftr (n + 50) 5 in
  let preceding :=
    DAYS_BEFORE_MONTH month + (if (2 <? month) && leapyear then 1 else 0) in
  if n <? preceding then
    let month := month - 1 in
    let preceding :=
      preceding - (DAYS_IN_MONTH month + (if (month =? 2) && leapyear then 1 else 0)) in
    (month, n - preceding + 1)
  else (month, n - preceding + 1).

(** [_ord2ymd]: day number to year, month, day, by 400-, 100-, 4- and
    1-year cycles. *)
Definition ord2ymd (n0 : Z) : Z * Z * Z :=
  let n := n0 - 1 in
  let n400 := n / 146097 in let n := n mod 146097 in
  let year := n400 * 400 + 1 in
  let n100 := n / 36524 in let n := n mod 36524 in
  let n4 := n / 1461 in let n := n mod 1461 in
  let n1 := n / 365 in let n := n mod 365 in
  let year := year + n100 * 100 + n4 * 4 + n1 in
  if (n1 =? 4) || (n100 =? 4) then (year - 1, 12, 31)
  else
    let leapyear := (n1 =? 3) && (negb (n4 =? 24) || (n100 =? 3)) in
    let '(month, day) := month_day leapyear n in
    (year, month, day).

(** A naive datetime: the day number of its date and the microseconds since
    midnight of its time. *)
Record datetime : Type := mk_dt { ordinal : Z; micros : Z }.

Definition MICROS_PER_DAY : Z := 86400000000.

Definition valid_datetime (d : datetime) : Prop :=
  1 <= ordinal d <= MAXORDINAL /\ 0 <= micros d < MICROS_PER_DAY.

Definition dt_year (d : datetime) : Z := fst (fst (ord2ymd (ordinal d))).
Definition dt_month (d : datetime) : Z := snd (fst (ord2ymd (ordinal d))).
Definition dt_day (d : datetime) : Z := snd (ord2ymd (ordinal d)).

(** [a <= b] and [a < b] on datetimes; the ISO text that the store keeps for
    a naive datetime orders the same way. *)
Definition dt_leb (a b : datetime) : bool :=
  (ordinal a <? ordinal b) || ((ordinal a =? ordinal b) && (micros a <=? micros b)).


(** An integer that fits a C [int]. *)
Definition c_int (z : Z) : bool := (-2147483648 <=? z) && (z <=? 2147483647).

(** The constructor [datetime(year, month, day, ...)], also reached through
    [replace]: the arguments are converted to C [int]s, with an
    [OverflowError] for one that does not fit, and a date outside the
    calendar is refused with a [ValueError]. *)
Definition new_datetime (year month day us : Z) : result datetime :=
  if c_int year && c_int month && c_int day then
    if (MINYEAR <=? year) && (year <=? MAXYEAR)
       && (1 <=? month) && (month <=? 12)
       && (1 <=? day) && (day <=? days_in_month year month)
    then Ok (mk_dt (ymd2ord year month day) us)
    else Raise ValueError
  else Raise OverflowError.

(** [d + timedelta(days=n)]: the timedelta itself is limited to 999999999
    days, and the sum has to stay inside the calendar. *)
Definition add_days (d : datetime) (n : Z) : result datetime :=
  if (Z.abs n <=? 999999999)
     && (1 <=? ordinal d + n) && (ordinal d + n <=? MAXORDINAL)
  then Ok (mk_dt (ordinal d + n) (micros d))
  else Raise OverflowError.

(** The calendar day of a naive datetime, the day that Python's
    [strftime('%Y-%m-%d')] names. *)
Definition day_of (d : datetime) : Z := ordinal d.

(** ** Datetimes of records *)

(** The date of a record is a Python datetime that may be aware: next to
    the wall-clock fields it has the UTC offset of its [tzinfo], in minutes
    east of UTC, [None] for a naive datetime. The offsets are whole
    minutes, as those of the application are ([BEIJING_TZ] is 480). *)
Record timestamp : Type := mk_ts { wall : datetime; utcoffset : option Z }.

Definition naive (d : datetime) : timestamp := mk_ts d None.

(** Where the text of an offset stands among the endings of an ISO text:
    no offset first, then [+00:00] to [+23:59], then [-00:01] to [-23:59]. *)
Definition suffix_key (o : option Z) : Z :=
  match o with
  | None => -1
  | Some x => if x <? 0 then 1440 - x else x
  end.

(** The order of the texts that [isoformat] writes,
    [YYYY-MM-DDTHH:MM:SS[.ffffff][+HH:MM]], compared character by character
    as SQLite compares TEXT: the fields have fixed widths, so the texts
    order by date, then time, then ending. *)
Definition text_leb (a b : timestamp) : bool :=
  (ordinal (wall a) <? ordinal (wall b))
  || ((ordinal (wall a) =? ordinal (wall b))
      && ((micros (wall a) <? micros (wall b))
          || ((micros (wall a) =? micros (wall b))
              && (suffix_key (utcoffset a) <=? suffix_key (utcoffset b))))).

Definition text_ltb (a b : timestamp) : bool := negb (text_leb b a).


End Calendar.

(** ** Facts about the calendar *)

Module CalendarFacts.
Import Calendar.

Lemma div_mod_pin n d q r :
  0 <= r < d -> n = d * q + r -> n / d = q /\ n mod d = r.
Proof.
  intros Hr Hn. split; symmetry.
  - apply (Z.div_unique n d q r); auto.
  - apply (Z.mod_unique n d q r); auto.
Qed.

(** Case analysis on a month number known to lie in 1..12. *)
Ltac each_month m :=
  let Hc := fresh "Hc" in
  assert (Hc : m = 1 \/ m = 2 \/ m = 3 \/ m = 4 \/ m = 5 \/ m = 6 \/ m = 7
               \/ m = 8 \/ m = 9 \/ m = 10 \/ m = 11 \/ m = 12) by lia;
  decompose [or] Hc; clear Hc; subst m.

(** A year minus one, written in 400-, 100-, 4- and 1-year digits. *)
Lemma year_digits Y :
  0 <= Y ->
  exists a b c e, Y = 400 * a + 100 * b + 4 * c + e /\
                  0 <= a /\ 0 <= b <= 3 /\ 0 <= c <= 24 /\ 0 <= e <= 3.
Proof.
  intros HY.
  exists (Y / 400), (Y mod 400 / 100), (Y mod 100 / 4), (Y mod 4).
  Z.to_euclidean_division_equations; lia.
Qed.

Lemma is_leap_digits a b c e :
  0 <= a -> 0 <= b <= 3 -> 0 <= c <= 24 -> 0 <= e <= 3 ->
  is_leap (400 * a + 100 * b + 4 * c + e + 1) =
  (e =? 3) && (negb (c =? 24) || (b =? 3)).
Proof.
  intros Ha Hb Hc He. unfold is_leap.
  set (y := 400 * a + 100 * b + 4 * c + e + 1).
  assert (H4 : (y mod 4 =? 0) = (e =? 3)).
  { destruct (Z.eqb_spec e 3) as [E|Hne].
    - destruct (div_mod_pin y 4 (100 * a + 25 * b + c + 1) 0) as [_ ->];
        [lia|unfold y; lia|reflexivity].
    - destruct (div_mod_pin y 4 (100 * a + 25 * b + c) (e + 1)) as [_ ->];
        [lia|unfold y; lia|].
      apply Z.eqb_neq. lia. }
  assert (H100 : (y mod 100 =? 0) = (e =? 3) && (c =? 24)).
  { destruct (Z.eqb_spec e 3) as [E|Hne], (Z.eqb_spec c 24) as [C|Hnc]; cbn.
    1: destruct (div_mod_pin y 100 (4 * a + b + 1) 0) as [_ ->];
         [lia|unfold y; lia|reflexivity].
    all: destruct (div_mod_pin y 100 (4 * a + b) (4 * c + e + 1)) as [_ ->];
      [lia|unfold y; lia|apply Z.eqb_neq; lia]. }
  assert (H400 : (y mod 400 =? 0) = (e =? 3) && (c =? 24) && (b =? 3)).
  { destruct (Z.eqb_spec e 3) as [E|Hne], (Z.eqb_spec c 24) as [C|Hnc],
             (Z.eqb_spec b 3) as [B|Hnb]; cbn.
    1: destruct (div_mod_pin y 400 (a + 1) 0) as [_ ->];
         [lia|unfold y; lia|reflexivity].
    all: destruct (div_mod_pin y 400 a (100 * b + 4 * c + e + 1)) as [_ ->];
      [lia|unfold y; lia|apply Z.eqb_neq; lia]. }
  rewrite H4, H100, H400.
  destruct (e =? 3), (c =? 24), (b =? 3); reflexivity.
Qed.

Lemma days_before_year_digits a b c e :
  0 <= a -> 0 <= b <= 3 -> 0 <= c <= 24 -> 0 <= e <= 3 ->
  days_before_year (400 * a + 100 * b + 4 * c + e + 1) =
  146097 * a + 36524 * b + 1461 * c + 365 * e.
Proof.
  intros Ha Hb Hc He. unfold days_before_year. cbv zeta.
  replace (400 * a + 100 * b + 4 * c + e + 1 - 1)
    with (400 * a + 100 * b + 4 * c + e) by lia.
  set (Y := 400 * a + 100 * b + 4 * c + e).
  destruct (div_mod_pin Y 4 (100 * a + 25 * b + c) e) as [-> _];
    [lia|unfold Y; lia|].
  destruct (div_mod_pin Y 100 (4 * a + b) (4 * c + e)) as [-> _];
    [lia|unfold Y; lia|].
  destruct (div_mod_pin Y 400 a (100 * b + 4 * c + e)) as [-> _];
    [lia|unfold Y; lia|].
  unfold Y. lia.
Qed.

(** [ord2ymd] on the [k]-th day (from 0) of year [y]. *)
Lemma ord2ymd_year_start y k :
  1 <= y -> 0 <= k < 365 + (if is_leap y then 1 else 0) ->
  ord2ymd (days_before_year y + k + 1) =
  if k =? 365 then (y, 12, 31)
  else let '(m, d) := month_day (is_leap y) k in (y, m, d).
Proof.
  intros Hy Hk.
  destruct (year_digits (y - 1)) as (a & b & c & e & HY & Ha & Hb & Hc & He); [lia|].
  assert (Ey : y = 400 * a + 100 * b + 4 * c + e + 1) by lia.
  rewrite Ey in Hk |- *. clear Ey HY Hy y.
  rewrite is_leap_digits in * by assumption.
  rewrite days_before_year_digits by assumption.
  unfold ord2ymd. cbv zeta.
  set (N := 146097 * a + 36524 * b + 1461 * c + 365 * e + k + 1 - 1).
  assert (Hk' : k < 365 \/ (k = 365 /\ e = 3 /\ (c <> 24 \/ b = 3))).
  { destruct (Z.eqb_spec e 3), (Z.eqb_spec c 24), (Z.eqb_spec b 3); cbn in Hk; lia. }
  destruct (div_mod_pin N 146097 a (36524 * b + 1461 * c + 365 * e + k)) as [-> ->];
    [lia | unfold N; lia |].
  destruct (Z.eq_dec k 365) as [->|Hk365].
  - (* the last day of a leap year *)
    destruct Hk' as [?|(_ & -> & Hcb)]; [lia|].
    destruct (Z.eq_dec c 24) as [->|Hc24].
    + assert (b = 3) by lia. subst b.
      destruct (div_mod_pin (36524 * 3 + 1461 * 24 + 365 * 3 + 365) 36524 4 0)
        as [-> ->]; [lia|lia|].
      change (0 mod 1461) with 0. change (0 / 1461) with 0.
      change (0 / 365) with 0. change (4 =? 4) with true.
      rewrite orb_true_r. change (365 =? 365) with true. cbv iota.
      f_equal. f_equal. lia.
    + destruct (div_mod_pin (36524 * b + 1461 * c + 365 * 3 + 365) 36524 b
                  (1461 * c + 1460)) as [-> ->]; [lia|lia|].
      destruct (div_mod_pin (1461 * c + 1460) 1461 c 1460) as [-> ->]; [lia|lia|].
      change (1460 / 365) with 4. change (4 =? 4) with true.
      change (365 =? 365) with true. cbn [orb]. cbv iota.
      f_equal. f_equal. lia.
  - assert (k < 365) by lia.
    destruct (div_mod_pin (36524 * b + 1461 * c + 365 * e + k) 36524 b
                (1461 * c + 365 * e + k)) as [-> ->]; [lia|lia|].
    destruct (div_mod_pin (1461 * c + 365 * e + k) 1461 c (365 * e + k))
      as [-> ->]; [lia|lia|].
    destruct (div_mod_pin (365 * e + k) 365 e k) as [-> ->]; [lia|lia|].
    replace (e =? 4) with false by (symmetry; apply Z.eqb_neq; lia).
    replace (b =? 4) with false by (symmetry; apply Z.eqb_neq; lia).
    replace (k =? 365) with false by (symmetry; apply Z.eqb_neq; lia).
    cbn [orb]. destruct (month_day _ k). f_equal. f_equal. lia.
Qed.

(** The integers [lo], [lo + 1], ..., [lo + len - 1]. *)
Definition Zrange (lo : Z) (len : nat) : list Z :=
  List.map (fun i => lo + Z.of_nat i) (List.seq 0 len).

Lemma In_Zrange lo len x : lo <= x < lo + Z.of_nat len -> In x (Zrange lo len).
Proof.
  intros Hx. unfold Zrange. apply List.in_map_iff.
  exists (Z.to_nat (x - lo)). split; [lia|].
  apply List.in_seq. lia.
Qed.

Lemma forallb_Zrange (P : Z -> bool) lo len :
  List.forallb P (Zrange lo len) = true ->
  forall x, lo <= x < lo + Z.of_nat len -> P x = true.
Proof.
  intros H x Hx. rewrite List.forallb_forall in H. apply H, In_Zrange, Hx.
Qed.

Lemma DAYS_IN_MONTH_bounds m : 1 <= m <= 12 -> 28 <= DAYS_IN_MONTH m <= 31.
Proof. intros Hm. each_month m; cbn; lia. Qed.

Lemma DAYS_BEFORE_MONTH_bounds m : 1 <= m <= 12 -> 0 <= DAYS_BEFORE_MONTH m <= 334.
Proof. intros Hm. each_month m; cbn; lia. Qed.

(** [month_day] undoes [DAYS_BEFORE_MONTH]: checked on every day of a
    common year and of a leap year. *)
Definition month_day_inverts (leap : bool) (m d : Z) : bool :=
  let len := DAYS_IN_MONTH m + (if (m =? 2) && leap then 1 else 0) in
  let before := DAYS_BEFORE_MONTH m + (if (2 <? m) && leap then 1 else 0) in
  implb (d <=? len)
    (let '(m', d') := month_day leap (before + d - 1) in
     (m' =? m) && (d' =? d) && (before + d - 1 <? 365 + (if leap then 1 else 0))).

Lemma month_day_inverts_all leap :
  List.forallb (fun m => List.forallb (month_day_inverts leap m) (Zrange 1 31))
    (Zrange 1 12) = true.
Proof. destruct leap; vm_compute; reflexivity. Qed.

Lemma month_day_inv leap m d :
  1 <= m <= 12 ->
  1 <= d <= DAYS_IN_MONTH m + (if (m =? 2) && leap then 1 else 0) ->
  let k := DAYS_BEFORE_MONTH m + (if (2 <? m) && leap then 1 else 0) + d - 1 in
  month_day leap k = (m, d) /\ 0 <= k < 365 + (if leap then 1 else 0).
Proof.
  intros Hm Hd k.
  pose proof (DAYS_IN_MONTH_bounds m Hm) as Hlen.
  pose proof (DAYS_BEFORE_MONTH_bounds m Hm) as Hbef.
  assert (Hd31 : d <= 31).
  { destruct ((m =? 2) && leap) eqn:E; [|lia].
    apply andb_prop in E as [E _]. apply Z.eqb_eq in E. subst m. cbn in Hd. lia. }
  pose proof (forallb_Zrange _ 1 12 (month_day_inverts_all leap) m ltac:(lia)) as Hrow.
  cbv beta in Hrow.
  pose proof (forallb_Zrange _ 1 31 Hrow d ltac:(lia)) as Hcell.
  unfold month_day_inverts in Hcell. cbv zeta in Hcell.
  replace (d <=? _) with true in Hcell by (symmetry; apply Z.leb_le; lia).
  cbn [implb] in Hcell. fold k in Hcell.
  destruct (month_day leap k) as [m' d'].
  apply andb_prop in Hcell as [Hcell Hk]. apply andb_prop in Hcell as [Em Ed].
  apply Z.eqb_eq in Em, Ed. apply Z.ltb_lt in Hk. subst m' d'.
  split; [reflexivity|].
  unfold k. destruct ((2 <? m) && leap); lia.
Qed.

(** [ord2ymd] is the inverse of [ymd2ord] on the dates of the calendar. *)
Lemma ord2ymd_ymd2ord y m d :
  1 <= y -> 1 <= m <= 12 -> 1 <= d <= days_in_month y m ->
  ord2ymd (ymd2ord y m d) = (y, m, d).
Proof.
  intros Hy Hm Hd.
  assert (Hd' : 1 <= d <= DAYS_IN_MONTH m + (if (m =? 2) && is_leap y then 1 else 0)).
  { unfold days_in_month in Hd. destruct ((m =? 2) && is_leap y) eqn:E; [|lia].
    apply andb_prop in E as [E _]. apply Z.eqb_eq in E. subst m. cbn. lia. }
  destruct (month_day_inv (is_leap y) m d Hm Hd') as [Hmd Hk].
  unfold ymd2ord, days_before_month.
  set (k := DAYS_BEFORE_MONTH m + (if (2 <? m) && is_leap y then 1 else 0) + d - 1) in *.
  replace (days_before_year y + _ + d) with (days_before_year y + k + 1)
    by (unfold k; lia).
  rewrite ord2ymd_year_start by assumption.
  destruct (Z.eqb_spec k 365) as [E|_].
  - rewrite E in Hmd, Hk. destruct (is_leap y); [|lia].
    vm_compute in Hmd. congruence.
  - rewrite Hmd. reflexivity.
Qed.

Definition month_day_in_range (leap : bool) (n : Z) : bool :=
  let '(m, d) := month_day leap n in
  (1 <=? m) && (m <=? 12) && (1 <=? d) && (d <=? 31).

Lemma month_day_in_range_all leap :
  List.forallb (month_day_in_range leap) (Zrange 0 365) = true.
Proof. destruct leap; vm_compute; reflexivity. Qed.

(** Every day number of the calendar has a year in 1..9999, a month in
    1..12 and a day in 1..31. *)
Lemma ord2ymd_range n :
  1 <= n <= MAXORDINAL ->
  let '(y, m, d) := ord2ymd n in
  1 <= y <= 9999 /\ 1 <= m <= 12 /\ 1 <= d <= 31.
Proof.
  unfold MAXORDINAL. intros Hn. unfold ord2ymd. cbv zeta.
  pose proof (Z.div_mod (n - 1) 146097 ltac:(lia)) as E1.
  pose proof (Z.mod_pos_bound (n - 1) 146097 ltac:(lia)) as B1.
  set (q400 := (n - 1) / 146097) in *. set (r1 := (n - 1) mod 146097) in *.
  pose proof (Z.div_mod r1 36524 ltac:(lia)) as E2.
  pose proof (Z.mod_pos_bound r1 36524 ltac:(lia)) as B2.
  set (q100 := r1 / 36524) in *. set (r2 := r1 mod 36524) in *.
  pose proof (Z.div_mod r2 1461 ltac:(lia)) as E3.
  pose proof (Z.mod_pos_bound r2 1461 ltac:(lia)) as B3.
  set (q4 := r2 / 1461) in *. set (r3 := r2 mod 1461) in *.
  pose proof (Z.div_mod r3 365 ltac:(lia)) as E4.
  pose proof (Z.mod_pos_bound r3 365 ltac:(lia)) as B4.
  set (q1 := r3 / 365) in *. set (r4 := r3 mod 365) in *.
  clearbody q400 r1 q100 r2 q4 r3 q1 r4.
  assert (0 <= q400 /\ 0 <= q100 <= 4 /\ 0 <= q4 <= 24 /\ 0 <= q1 <= 4) as (?&?&?&?) by lia.
  destruct ((q1 =? 4) || (q100 =? 4)) eqn:Esp.
  - apply orb_prop in Esp. repeat split; try lia.
    all: destruct Esp as [E|E]; apply Z.eqb_eq in E; lia.
  - apply orb_false_elim in Esp as [N1 N100].
    apply Z.eqb_neq in N1, N100.
    set (leapyear := (q1 =? 3) && (negb (q4 =? 24) || (q100 =? 3))).
    pose proof (forallb_Zrange _ 0 365 (month_day_in_range_all leapyear) r4
                  ltac:(lia)) as Hmd.
    unfold month_day_in_range in Hmd.
    destruct (month_day leapyear r4) as [m d].
    repeat (apply andb_prop in Hmd as [Hmd ?]).
    repeat split; lia.
Qed.

Lemma div_step y d :
  0 < d -> y / d - (y - 1) / d = if y mod d =? 0 then 1 else 0.
Proof.
  intros Hd. destruct (Z.eqb_spec (y mod d) 0) as [E|E].
  - assert (Hy : y = d * (y / d)) by (pose proof (Z.div_mod y d); lia).
    destruct (div_mod_pin (y - 1) d (y / d - 1) (d - 1)) as [-> _]; lia.
  - pose proof (Z.div_mod y d ltac:(lia)). pose proof (Z.mod_pos_bound y d Hd).
    destruct (div_mod_pin (y - 1) d (y / d) (y mod d - 1)) as [-> _]; lia.
Qed.

Lemma days_before_year_succ y :
  days_before_year (y + 1) =
  days_before_year y + 365 + (if is_leap y then 1 else 0).
Proof.
  unfold days_before_year, is_leap. cbv zeta.
  replace (y + 1 - 1) with y by lia.
  pose proof (div_step y 4 ltac:(lia)) as H4.
  pose proof (div_step y 100 ltac:(lia)) as H100.
  pose proof (div_step y 400 ltac:(lia)) as H400.
  assert (D1 : y mod 100 = 0 -> y mod 4 = 0).
  { intros E. rewrite (Z.div_mod y 100) by lia. rewrite E.
    replace (100 * (y / 100) + 0) with ((25 * (y / 100)) * 4) by lia.
    apply Z.mod_mul. lia. }
  assert (D2 : y mod 400 = 0 -> y mod 100 = 0).
  { intros E. rewrite (Z.div_mod y 400) by lia. rewrite E.
    replace (400 * (y / 400) + 0) with ((4 * (y / 400)) * 100) by lia.
    apply Z.mod_mul. lia. }
  destruct (Z.eqb_spec (y mod 4) 0), (Z.eqb_spec (y mod 100) 0),
    (Z.eqb_spec (y mod 400) 0); cbn [andb orb negb]; lia.
Qed.

Lemma days_before_month_succ leap m :
  1 <= m <= 11 ->
  DAYS_BEFORE_MONTH (m + 1) + (if (2 <? m + 1) && leap then 1 else 0) =
  DAYS_BEFORE_MONTH m + (if (2 <? m) && leap then 1 else 0)
  + (if (m =? 2) && leap then 29 else DAYS_IN_MONTH m).
Proof. intros Hm. each_month m; try lia; destruct leap; reflexivity. Qed.

Lemma days_before_year_mono y1 y2 :
  y1 <= y2 -> days_before_year y1 <= days_before_year y2.
Proof.
  intros Hle.
  replace y2 with (y1 + Z.of_nat (Z.to_nat (y2 - y1))) by lia.
  induction (Z.to_nat (y2 - y1)) as [|k IH].
  - replace (y1 + Z.of_nat 0) with y1 by lia. lia.
  - replace (y1 + Z.of_nat (S k)) with (y1 + Z.of_nat k + 1) by lia.
    rewrite days_before_year_succ. destruct (is_leap _); lia.
Qed.

Lemma days_before_year_nonneg y : 1 <= y -> 0 <= days_before_year y.
Proof.
  intros Hy. pose proof (days_before_year_mono 1 y Hy) as Hm.
  change (days_before_year 1) with 0 in Hm. exact Hm.
Qed.

(** The days of a year before a month and in it stay within the year. *)
Lemma month_within_year leap m :
  1 <= m <= 12 ->
  0 <= DAYS_BEFORE_MONTH m + (if (2 <? m) && leap then 1 else 0) /\
  DAYS_BEFORE_MONTH m + (if (2 <? m) && leap then 1 else 0)
  + (if (m =? 2) && leap then 29 else DAYS_IN_MONTH m)
  <= 365 + (if leap then 1 else 0).
Proof. intros Hm. each_month m; destruct leap; cbn; lia. Qed.

Lemma days_in_month_bounds y m : 1 <= m <= 12 -> 28 <= days_in_month y m <= 31.
Proof.
  intros Hm. unfold days_in_month. pose proof (DAYS_IN_MONTH_bounds m Hm).
  destruct ((m =? 2) && is_leap y); lia.
Qed.

(** The dates of the calendar have the day numbers 1 to [MAXORDINAL]. *)
Lemma ymd2ord_bounds y m d :
  1 <= y <= 9999 -> 1 <= m <= 12 -> 1 <= d <= days_in_month y m ->
  1 <= ymd2ord y m d <= MAXORDINAL.
Proof.
  intros Hy Hm Hd. unfold ymd2ord, days_before_month.
  pose proof (days_before_year_nonneg y ltac:(lia)) as H0.
  pose proof (month_within_year (is_leap y) m Hm) as [Hlo Hhi].
  fold (days_in_month y m) in Hhi.
  pose proof (days_before_year_succ y) as Hs.
  pose proof (days_before_year_mono (y + 1) 10000 ltac:(lia)) as Hmax.
  change (days_before_year 10000) with MAXORDINAL in Hmax.
  lia.
Qed.

(** The day before the first day of the next month is the last day of the
    month. *)
Lemma pred_next_month y m :
  1 <= m <= 12 ->
  ymd2ord (if m =? 12 then y + 1 else y) (if m =? 12 then 1 else m + 1) 1 - 1
  = ymd2ord y m (days_in_month y m).
Proof.
  intros Hm. unfold ymd2ord, days_before_month, days_in_month.
  destruct (Z.eqb_spec m 12) as [->|Hne].
  - rewrite days_before_year_succ.
    change (DAYS_BEFORE_MONTH 1) with 0. change (DAYS_BEFORE_MONTH 12) with 334.
    change (DAYS_IN_MONTH 12) with 31. change (2 <? 1) with false.
    change (2 <? 12) with true. change (12 =? 2) with false.
    cbn [andb]. destruct (is_leap y); lia.
  - rewrite days_before_month_succ by lia. lia.
Qed.

(** Its day number in the month is the month's length. *)
Lemma last_day_of_month y m :
  1 <= y -> 1 <= m <= 12 ->
  ord2ymd (ymd2ord (if m =? 12 then y + 1 else y)
                   (if m =? 12 then 1 else m + 1) 1 - 1) =
  (y, m, days_in_month y m).
Proof.
  intros Hy Hm. rewrite pred_next_month by assumption.
  pose proof (days_in_month_bounds y m Hm).
  apply ord2ymd_ymd2ord; lia.
Qed.

Lemma new_datetime_ok (y m d us : Z) :
  1 <= y <= 9999 -> 1 <= m <= 12 -> 1 <= d <= days_in_month y m ->
  new_datetime y m d us = Ok (mk_dt (ymd2ord y m d) us).
Proof.
  intros Hy Hm Hd. unfold new_datetime, MINYEAR, MAXYEAR.
  assert (E : c_int y && c_int m && c_int d = true).
  { unfold c_int. pose proof (days_in_month_bounds y m Hm). lia. }
  rewrite E. replace (_ && _) with true by lia. reflexivity.
Qed.

Lemma add_days_ok (d : datetime) (n : Z) :
  1 <= ordinal d + n <= MAXORDINAL -> 1 <= ordinal d <= MAXORDINAL ->
  add_days d n = Ok (mk_dt (ordinal d + n) (micros d)).
Proof.
  unfold add_days, MAXORDINAL. intros Hs Hd.
  replace (_ && _) with true by lia. reflexivity.
Qed.

Lemma new_datetime_bad_year (year month day us : Z) :
  c_int year = true -> c_int month = true -> c_int day = true ->
  year < 1 \/ 9999 < year ->
  new_datetime year month day us = Raise ValueError.
Proof.
  intros Hy Hm Hd Hyear. unfold new_datetime, MINYEAR, MAXYEAR.
  rewrite Hy, Hm, Hd. cbn [andb].
  destruct ((1 <=? year) && (year <=? 9999)) eqn:E; [lia|]. reflexivity.
Qed.

Lemma new_datetime_overflows (year month day us : Z) :
  c_int year = false -> new_datetime year month day us = Raise OverflowError.
Proof.
  intros Hy. unfold new_datetime. rewrite Hy. reflexivity.
Qed.

End CalendarFacts.

(** * Python floats *)

Module PyFloat.

(** The literals of the forecast: [0.8], [0.9] and [15.0], each the binary64
    value nearest to the decimal text. *)
Definition F0_8 : float := 0x1.999999999999ap-1%float.
Definition F0_9 : float := 0x1.ccccccccccccdp-1%float.
Definition F15 : float := 15%float.

(** An [int] operand of a float operation is converted first; the integers
    converted here (days of a month, counts of days) are far below 2^63. *)
Definition float_of_int (z : Z) : float :=
  if z <? 0 then (- of_uint63 (Uint63.of_Z (- z)))%float
  else of_uint63 (Uint63.of_Z z).

(** [min(a, b)]: the first argument unless the second is smaller. *)
Definition py_min (a b : float) : float :=
  if (b <? a)%float then b else a.

(** [x != x], true of NaN only. *)
Definition isnan (x : float) : bool := negb (x =? x)%float.

End PyFloat.

(** * What SQLite does with integers and with the text of a datetime *)

Module Sqlite.
Import Calendar PyFloat.

(** A Python [int] is bound to a statement as a 64-bit integer; for any
    other, [sqlite3] raises [OverflowError] before the statement runs. *)
Definition sqlite_int (z : Z) : bool :=
  (-9223372036854775808 <=? z) && (z <=? 9223372036854775807).

(** The C conversion of a double to an integer: the fraction is dropped. *)
Definition float_to_Z (x : float) : Z :=
  match Prim2SF x with
  | S754_finite s m e =>
      let v := if 0 <=? e then Z.pos m * 2 ^ e else Z.pos m / 2 ^ (- e) in
      if s then - v else v
  | _ => 0
  end.

(** The milliseconds that the engine reads in [SS.ffffff]: the seconds and
    the fraction are added as doubles and rounded,
    [(sqlite3_int64)(s * 1000 + 0.5)]. *)
Definition sqlite_millis (sec frac : Z) : Z :=
  float_to_Z ((float_of_int sec + float_of_int frac / 1000000) * 1000
              + 0x1p-1)%float.

(** The time of day of a datetime, in the engine's milliseconds. *)
Definition millis_of_day (d : datetime) : Z :=
  let us := micros d in
  (us / 3600000000) * 3600000 + ((us / 60000000) mod 60) * 60000
  + sqlite_millis ((us / 1000000) mod 60) (us mod 1000000).

(** [DATE(text)] and [strftime('%Y-%m-%d', text)], the day they name or
    [None] for NULL. An offset of more than 14:59 is not read. The engine
    computes the instant in UTC, to the millisecond, and gives NULL past
    the end of 9999-12-31; for a text with an offset other than [+00:00]
    the day is the day of that instant, and otherwise it is the day
    written in the text. *)
Definition sql_date (t : timestamp) : option Z :=
  let o := default 0 (utcoffset t) in
  if Z.abs o <=? 899 then
    let day :=
      ordinal (wall t) + (millis_of_day (wall t) - o * 60000) / 86400000 in
    if day <=? MAXORDINAL then
      Some (if o =? 0 then ordinal (wall t) else day)
    else None
  else None.

End Sqlite.

(** * [app/models.py] *)

Module Models.
Import Calendar.

Record IncomeRecord : Type := {
  id : option Z;          (* None for a record not stored yet *)
  amount : float;
  category : string;
  description : string;
  date : timestamp;
  created_at : timestamp
}.

(** [__post_init__]: the validation run by the dataclass constructor. *)
Definition post_init (self : IncomeRecord) : result unit :=
  if (amount self <? 0)%float then Raise ValueError else Ok tt.

(** [IncomeRecord(id, amount, category, description, date, created_at)]. *)
Definition new_IncomeRecord (i : option Z) (a : float) (c d : string)
    (dt ct : timestamp) : result IncomeRecord :=
  let self := {| id := i; amount := a; category := c; description := d;
                 date := dt; created_at := ct |} in
  _ ← post_init self; Ok self.

(** A row of the table [income_records]. The two TEXT columns hold the
    text that [isoformat] wrote of a datetime; the model keeps the
    timestamp, which is what [fromisoformat] makes of the text again. *)
Record Row : Type := {
  row_id : Z;
  row_amount : float;
  row_category : string;
  row_description : string;
  row_date : timestamp;
  row_created_at : timestamp
}.

Definition from_db_row (row : Row) : result IncomeRecord :=
  new_IncomeRecord (Some (row_id row)) (row_amount row) (row_category row)
    (row_description row) (row_date row) (row_created_at row).

End Models.

(** * [app/database.py] *)

(** What the code leaves to the SQLite engine and to the Python runtime:
    how [SUM] accumulates a non-empty group of REAL values, given in the
    order in which the engine visits the rows (the rounding depends on the
    engine's release), the parser behind [float(text)], [None] standing for
    its [ValueError], and whether the C library's [strftime] writes the year
    of [%Y] with four digits when it is below 1000 (glibc does not). *)
Class Engine : Type := {
  real_sum : list float -> float;
  py_float : string -> option float;
  strftime_pads_year : bool
}.

Module Db.
Import Calendar PyFloat Sqlite Models.

(** The database file: the table [income_records], the counter that
    AUTOINCREMENT keeps in [sqlite_sequence], and the table [app_settings]. *)
Record Database : Type := {
  income_records : list Row;
  sqlite_sequence : Z;
  app_settings : gmap string string
}.

(** [init_db] on a new file. *)
Definition empty_db : Database :=
  {| income_records := []; sqlite_sequence := 0; app_settings := ∅ |}.

(** ** SQL building blocks *)

(** [SUM(x)] is NULL over no row. *)
Definition sql_sum `{Engine} (xs : list float) : option float :=
  match xs with
  | [] => None
  | _ => Some (real_sum xs)
  end.

(** [COALESCE(x, 0)]; the integer 0 it yields behaves as [0.0] in the
    float arithmetic done on it afterwards. *)
Definition coalesce0 (x : option float) : float :=
  match x with
  | Some v => v
  | None => 0%float
  end.

(** [WHERE date >= ? AND date <= ?], the two bounds being the ISO texts of
    naive datetimes of [database.py]. *)
Definition in_window (start_date end_date : datetime) (r : Row) : bool :=
  text_leb (naive start_date) (row_date r)
  && text_leb (row_date r) (naive end_date).

(** The order of the entries of [idx_income_date]: by date text, then by
    rowid. *)
Definition index_before (a b : Row) : bool :=
  text_ltb (row_date a) (row_date b)
  || (text_leb (row_date a) (row_date b) && (row_id a <=? row_id b)).

(** The rows that a condition on [date] keeps come in the order of the
    index, which the engine walks for such a query; without one it walks
    the table. *)
Definition index_scan (rows : list Row) : list Row :=
  merge_sort (fun a b => Is_true (index_before a b)) rows.

(** [SELECT COALESCE(SUM(amount), 0) FROM income_records
     WHERE date >= ? AND date <= ?], the statement shared by
    [get_yearly_income], [get_monthly_income] and [get_spending_forecast]. *)
Definition windowed_total `{Engine} (db : Database)
    (start_date end_date : datetime) : float :=
  coalesce0 (sql_sum (List.map row_amount
    (index_scan
       (List.filter (in_window start_date end_date) (income_records db))))).

(** The largest rowid of the table, 0 when it is empty. *)
Definition max_rowid (rows : list Row) : Z :=
  List.fold_right (fun r acc => Z.max (row_id r) acc) 0 rows.

(** Binding an id to a statement: [sqlite3] takes 64-bit integers and
    raises [OverflowError] for any other. The rowids of a store are 64-bit
    integers, its counter included; the model keeps them as unbounded
    integers, and takes every id up to the largest that the store has
    given out as one that binds. On a store of 64-bit ids these are the
    64-bit integers. *)
Definition binds (db : Database) (i : Z) : bool :=
  sqlite_int i
  || ((1 <=? i)
      && (i <=? Z.max (max_rowid (income_records db)) (sqlite_sequence db))).

(** ** Records *)

(** [add_income]: AUTOINCREMENT takes one more than the largest rowid ever
    used; [amount REAL NOT NULL] refuses a NaN, which SQLite binds as NULL. *)
Definition add_income (db : Database) (record : IncomeRecord)
    : result (Database * Z) :=
  if isnan (amount record) then Raise IntegrityError
  else
    let lastrowid := Z.max (max_rowid (income_records db)) (sqlite_sequence db) + 1 in
    let row := {| row_id := lastrowid;
                  row_amount := amount record;
                  row_category := category record;
                  row_description := description record;
                  row_date := date record;
                  row_created_at := created_at record |} in
    Ok ({| income_records := income_records db ++ [row];
           sqlite_sequence := lastrowid;
           app_settings := app_settings db |}, lastrowid).

(** [SET amount = ?, category = ?, description = ?, date = ?] on one row. *)
Definition set_fields (record : IncomeRecord) (r : Row) : Row :=
  {| row_id := row_id r;
     row_amount := amount record;
     row_category := category record;
     row_description := description record;
     row_date := date record;
     row_created_at := row_created_at r |}.

Definition update_income (db : Database) (record : IncomeRecord)
    : result (Database * bool) :=
  match id record with
  | None => Ok (db, false)
  | Some i =>
    if binds db i then
      let rowcount :=
        length (List.filter (fun r => row_id r =? i) (income_records db)) in
      if (0 <? rowcount)%nat && isnan (amount record) then Raise IntegrityError
      else
        Ok ({| income_records :=
                 List.map (fun r => if row_id r =? i then set_fields record r else r)
                   (income_records db);
               sqlite_sequence := sqlite_sequence db;
               app_settings := app_settings db |},
            (0 <? rowcount)%nat)
    else Raise OverflowError
  end.

Definition delete_income (db : Database) (record_id : Z)
    : result (Database * bool) :=
  if binds db record_id then
    let rowcount :=
      length (List.filter (fun r => row_id r =? record_id) (income_records db)) in
    Ok ({| income_records :=
             List.filter (fun r => negb (row_id r =? record_id)) (income_records db);
           sqlite_sequence := sqlite_sequence db;
           app_settings := app_settings db |},
        (0 <? rowcount)%nat)
  else Raise OverflowError.

Definition get_income_by_id (db : Database) (record_id : Z)
    : result (option IncomeRecord) :=
  if binds db record_id then
    match List.find (fun r => row_id r =? record_id) (income_records db) with
    | Some row => r ← from_db_row row; Ok (Some r)
    | None => Ok None
    end
  else Raise OverflowError.

(** [ORDER BY date DESC, created_at DESC], on the texts of the two
    columns. The order of two rows that agree in both is left to the
    engine, which walks the index on [date] backwards and so returns them
    by descending rowid. *)
Definition row_before (a b : Row) : bool :=
  text_ltb (row_date b) (row_date a)
  || (text_leb (row_date b) (row_date a)
      && (text_ltb (row_created_at b) (row_created_at a)
          || (text_leb (row_created_at b) (row_created_at a)
              && (row_id b <=? row_id a)))).

(** [LIMIT ? OFFSET ?]: a negative limit is no limit, a negative offset is
    no offset. *)
Definition limit_offset {A : Type} (limit offset : Z) (l : list A) : list A :=
  let rest := drop (Z.to_nat offset) l in
  if limit <? 0 then rest else take (Z.to_nat limit) rest.

Definition string_truthy (s : string) : bool :=
  match s with
  | EmptyString => false
  | _ => true
  end.

(** [get_incomes]; a datetime is always truthy, a category only when it is
    not empty. The limit and the offset are bound as integers, 64-bit ones
    or [OverflowError]. *)
Definition get_incomes (db : Database) (start_date end_date : option timestamp)
    (category : option string) (limit offset : Z) : result (list IncomeRecord) :=
  let by_start r :=
    match start_date with
    | Some s => text_leb s (row_date r)
    | None => true
    end in
  let by_end r :=
    match end_date with
    | Some e => text_leb (row_date r) e
    | None => true
    end in
  let by_category r :=
    match category with
    | Some c => if string_truthy c then bool_decide (row_category r = c) else true
    | None => true
    end in
  if sqlite_int limit && sqlite_int offset then
    let rows :=
      limit_offset limit offset
        (merge_sort (fun a b => Is_true (row_before a b))
           (List.filter (fun r => by_start r && by_end r && by_category r)
              (income_records db))) in
    mapM from_db_row rows
  else Raise OverflowError.

(** ** Statistics *)

Definition get_total_income `{Engine} (db : Database) : float :=
  coalesce0 (sql_sum (List.map row_amount (income_records db))).

Definition get_yearly_income `{Engine} (db : Database) (now : datetime)
    (year : option Z) : result float :=
  let year := default (dt_year now) year in
  start_date ← new_datetime year 1 1 0;
  end_date ← new_datetime year 12 31 86399000000;
  Ok (windowed_total db start_date end_date).

Definition get_monthly_income `{Engine} (db : Database) (now : datetime)
    (days : Z) : result float :=
  let end_date := now in
  start_date ← add_days end_date (- days);
  Ok (windowed_total db start_date end_date).

(** [SELECT COUNT(DISTINCT DATE(date)) FROM income_records]; a NULL is
    not counted. *)
Definition count_distinct_days (db : Database) : Z :=
  Z.of_nat (length (remove_dups (omap (fun r => sql_date (row_date r))
                                  (income_records db)))).

Definition get_daily_average `{Engine} (db : Database) : float :=
  let days := count_distinct_days db in
  if days =? 0 then 0%float
  else
    let total := coalesce0 (sql_sum (List.map row_amount (income_records db))) in
    (total / float_of_int days)%float.

(** [get_statistics]; the clock is read once by [get_yearly_income] and once
    by [get_monthly_income]. *)
Definition get_statistics `{Engine} (db : Database) (now1 now2 : datetime)
    : result (gmap string float) :=
  let total_income := get_total_income db in
  yearly_income ← get_yearly_income db now1 None;
  monthly_income ← get_monthly_income db now2 30;
  let daily_average := get_daily_average db in
  Ok (<["daily_average" := daily_average]>
      (<["monthly_income" := monthly_income]>
      (<["yearly_income" := yearly_income]>
      (<["total_income" := total_income]> ∅)))).

Definition get_record_count (db : Database) : Z :=
  Z.of_nat (length (income_records db)).

(** ** Daily trend *)

(** The order of the day keys, NULL first. *)
Definition day_le (a b : option Z) : Prop :=
  match a, b with
  | None, _ => True
  | Some _, None => False
  | Some x, Some y => x <= y
  end.

#[global] Instance day_le_dec (a b : option Z) : Decision (day_le a b).
Proof. destruct a, b; cbn; apply _. Defined.

(** [SELECT strftime('%Y-%m-%d', date) as day, SUM(amount) ...
     WHERE date >= ? AND date <= ? GROUP BY day ORDER BY day ASC]:
    one row per day, as the engine reads it, that has a record in the
    window; [None] is the NULL of a text that the engine does not read. *)
Definition daily_sums `{Engine} (db : Database) (start_date end_date : datetime)
    : list (option Z * float) :=
  let rows :=
    index_scan
      (List.filter (in_window start_date end_date) (income_records db)) in
  let days :=
    merge_sort day_le
      (remove_dups (List.map (fun r => sql_date (row_date r)) rows)) in
  List.map (fun day =>
    (day, real_sum (List.map row_amount
            (List.filter (fun r => bool_decide (sql_date (row_date r) = day))
               rows)))) days.

(** [{row[0]: row[1] for row in rows}]: a later row replaces an earlier one
    with the same key. *)
Definition dict_of_rows (rows : list (option Z * float))
    : gmap (option Z) float :=
  list_to_map (reverse rows).

(** [data.get(current.strftime('%Y-%m-%d'), 0.0)]: the text that Python
    writes of a day is the text that the engine writes of it, unless the
    year is below 1000 and the C library leaves it without its leading
    zeros; such a text is no key of the dictionary. *)
Definition data_get `{Engine} (data : gmap (option Z) float)
    (current : datetime) : float :=
  if strftime_pads_year || (1000 <=? dt_year current)
  then default 0%float (data !! Some (day_of current))
  else 0%float.

(** The loop of [get_daily_trend]:
    [while current <= end_date: ...; current += timedelta(days=1)], [get]
    being the lookup in the dictionary. *)
Equations? fill_days (get : datetime -> float) (end_date current : datetime)
    (dates : list Z) (values : list float) : result (list Z * list float)
    by wf (Z.to_nat (ordinal end_date + 1 - ordinal current)) lt :=
  fill_days get end_date current dates values with inspect (dt_leb current end_date) := {
    | exist _ true Hle with inspect (add_days current 1) := {
        | exist _ (Ok next) Hnext =>
            fill_days get end_date next
              (dates ++ [day_of current])
              (values ++ [get current]);
        | exist _ (Raise e) _ => Raise e };
    | exist _ false _ => Ok (dates, values) }.
Proof.
  unfold add_days in Hnext.
  destruct (_ && _) in Hnext; [|discriminate].
  injection Hnext as <-. cbn [ordinal].
  unfold dt_leb in Hle. lia.
Qed.

Definition get_daily_trend `{Engine} (db : Database) (now : datetime) (days : Z)
    : result (list Z * list float) :=
  let end_date := now in
  start_date ← add_days end_date (- days);
  let rows := daily_sums db start_date end_date in
  let data := dict_of_rows rows in
  fill_days (data_get data) end_date start_date [] [].

(** ** Settings *)

Definition get_setting (db : Database) (key : string) (default : option string)
    : option string :=
  match app_settings db !! key with
  | Some value => Some value
  | None => default
  end.

Definition set_setting (db : Database) (key value : string) : Database * bool :=
  ({| income_records := income_records db;
      sqlite_sequence := sqlite_sequence db;
      app_settings := <[key := value]> (app_settings db) |}, true).

(** [get_monthly_budget]: [float(val)], 0.0 on a [ValueError]; a [None]
    would be a [TypeError], which the default ["0"] rules out. *)
Definition get_monthly_budget `{Engine} (db : Database) : result float :=
  match get_setting db "monthly_budget" (Some "0"%string) with
  | Some val =>
    match py_float val with
    | Some x => Ok x
    | None => Ok 0%float
    end
  | None => Raise TypeError
  end.

(** ** Forecast *)

Record Forecast : Type := {
  predicted_total : float;
  remaining_days : Z;
  daily_average : float;
  status : string;
  current_month_spending : float
}.

(** Step 2 of [get_spending_forecast]: the current month's daily rate
    blended with the historical one. *)
Definition blended_daily_avg (passed_days : Z)
    (real_month_spending historical_daily_avg : float) : float :=
  if 1 <? passed_days then
    let current_daily_avg := (real_month_spending / float_of_int passed_days)%float in
    let weight_current := py_min F0_8 (float_of_int passed_days / F15)%float in
    (current_daily_avg * weight_current
     + historical_daily_avg * (1 - weight_current))%float
  else historical_daily_avg.

(** Step 4 of [get_spending_forecast]: the status against the budget. *)
Definition budget_status (budget predicted_total : float) : string :=
  if (0 <? budget)%float then
    if (budget <? predicted_total)%float then "danger"
    else if (budget * F0_9 <? predicted_total)%float then "warning"
    else "safe"
  else "safe".

Definition get_spending_forecast `{Engine} (db : Database) (now : datetime)
    : result Forecast :=
  let year := dt_year now in
  let month := dt_month now in
  next_month ←
    (if month =? 12 then new_datetime (year + 1) 1 1 (micros now)
     else new_datetime year (month + 1) 1 (micros now));
  last_day ← add_days next_month (-1);
  let total_days := dt_day last_day in
  let passed_days := dt_day now in
  let remaining_days := total_days - passed_days in
  start_of_month ← new_datetime year month 1 0;
  let real_month_spending := windowed_total db start_of_month now in
  let historical_daily_avg := get_daily_average db in
  let daily_avg :=
    blended_daily_avg passed_days real_month_spending historical_daily_avg in
  let predicted_remaining := (daily_avg * float_of_int remaining_days)%float in
  let predicted_total := (real_month_spending + predicted_remaining)%float in
  budget ← get_monthly_budget db;
  let status := budget_status budget predicted_total in
  Ok {| predicted_total := predicted_total;
        remaining_days := remaining_days;
        daily_average := daily_avg;
        status := status;
        current_month_spending := real_month_spending |}.

End Db.

(** [str(x)] of a float, left to the Python runtime as [float(text)] is. *)
Class Repr : Type := {
  py_str : float -> string
}.

(** ** The distribution over categories and the budget setting *)

Module Analysis.
Import Calendar PyFloat Models Db.



(** [set_monthly_budget]: the amount is stored as its text. *)
Definition set_monthly_budget `{Repr} (db : Database) (amount : float)
    : Database * bool :=
  set_setting db "monthly_budget" (py_str amount).

End Analysis.

(** * [app/utils.py]: the ranges of the quick filters *)

(** The clock of [get_beijing_time] is a parameter [now], the wall time at
    UTC+8; the fixed offset rides along unchanged through [replace] and the
    addition of a timedelta, which work on the wall time. *)
Module Utils.
Import Calendar.

(** [d.weekday()]: Monday is 0, Sunday is 6. *)
Definition weekday (d : datetime) : Z := (ordinal d + 6) mod 7.

(** [d + timedelta(days=days, microseconds=us)]: the timedelta is
    normalised and limited to 999999999 days, and the sum has to stay
    inside the calendar. *)
Definition add_timedelta (d : datetime) (days us : Z) : result datetime :=
  let delta_days := days + us / MICROS_PER_DAY in
  let delta_us := us mod MICROS_PER_DAY in
  if Z.abs delta_days <=? 999999999 then
    let t := micros d + delta_us in
    let o := ordinal d + delta_days + t / MICROS_PER_DAY in
    if (1 <=? o) && (o <=? MAXORDINAL) then Ok (mk_dt o (t mod MICROS_PER_DAY))
    else Raise OverflowError
  else Raise OverflowError.

(** [get_beijing_date]:
    [now.replace(hour=0, minute=0, second=0, microsecond=0)]. *)
Definition get_beijing_date (now : datetime) : result datetime :=
  new_datetime (dt_year now) (dt_month now) (dt_day now) 0.

Definition get_week_range (now : datetime) : result (datetime * datetime) :=
  today ← get_beijing_date now;
  start ← add_timedelta today (- weekday today) 0;
  end_ ← add_timedelta start 6 86399000000;
  Ok (start, end_).

Definition get_month_range (now : datetime) : result (datetime * datetime) :=
  today ← get_beijing_date now;
  start ← new_datetime (dt_year today) (dt_month today) 1 (micros today);
  end_ ←
    (if dt_month today =? 12
     then new_datetime (dt_year today + 1) 1 1 (micros today)
     else new_datetime (dt_year today) (dt_month today + 1) 1 (micros today));
  end_ ← add_timedelta end_ 0 (-1000000);
  Ok (start, end_).

Definition get_year_range (now : datetime) : result (datetime * datetime) :=
  today ← get_beijing_date now;
  start ← new_datetime (dt_year today) 1 1 (micros today);
  end_ ← new_datetime (dt_year today) 12 31
           (86399000000 + micros today mod 1000000);
  Ok (start, end_).

(** [get_recent_days_range]. *)
Definition get_recent_days_range (now : datetime) (days : Z)
    : result (datetime * datetime) :=
  let end_ := now in
  start ← add_days end_ (- days);
  start ← new_datetime (dt_year start) (dt_month start) (dt_day start) 0;
  Ok (start, end_).

End Utils.

(** * Example data *)

Module Examples.
Import Calendar Models Db.

(** A store with one record, entered for 2024-04-24 at midnight, and a
    record object that names an id the store does not have. *)
Definition salary_row : Row :=
  {| row_id := 1; row_amount := 5%float; row_category := "salary";
     row_description := ""; row_date := naive (mk_dt 739000 0);
     row_created_at := naive (mk_dt 739000 36000000000) |}.

Definition one_record_db : Database :=
  {| income_records := [salary_row]; sqlite_sequence := 1; app_settings := ∅ |}.

Definition stale_record : IncomeRecord :=
  {| id := Some 7; amount := 12%float; category := "bonus"; description := "";
     date := naive (mk_dt 739001 0); created_at := naive (mk_dt 739001 0) |}.

(** An engine for the examples: [SUM] adds the values in the order of the
    scan, and [float] reads the two texts the examples store. *)
Definition scan_order_engine : Engine :=
  {| real_sum := fun xs => List.fold_left PrimFloat.add xs 0%float;
     py_float := fun s =>
       if String.eqb s "0" then Some 0%float
       else if String.eqb s "100" then Some 100%float
       else None;
     strftime_pads_year := false |}.

(** Three records on two distinct days, 2024-04-24 and 2024-04-27. *)
Definition three_records_db : Database :=
  {| income_records :=
       [ salary_row;
         {| row_id := 2; row_amount := 7%float; row_category := "bonus";
            row_description := ""; row_date := naive (mk_dt 739000 61200000000);
            row_created_at := naive (mk_dt 739000 61200000000) |};
         {| row_id := 3; row_amount := 9%float; row_category := "rent";
            row_description := ""; row_date := naive (mk_dt 739003 0);
            row_created_at := naive (mk_dt 739003 100) |} ];
     sqlite_sequence := 3;
     app_settings := {[ "monthly_budget"%string := "100"%string ]} |}.

(** The record that the entry form writes for 2024-04-24, midnight of that
    day at UTC+8, as the only one of a store. *)
Definition form_row : Row :=
  {| row_id := 1; row_amount := 5%float; row_category := "salary";
     row_description := "";
     row_date := mk_ts (mk_dt 739000 0) (Some 480);
     row_created_at := mk_ts (mk_dt 739000 36000000000) (Some 480) |}.

Definition form_record_db : Database :=
  {| income_records := [form_row]; sqlite_sequence := 1; app_settings := ∅ |}.

(** Two records of one day, 2024-04-24 at 07:00 and at 09:00 of UTC+8. *)
Definition one_day_db : Database :=
  {| income_records :=
       [ {| row_id := 1; row_amount := 5%float; row_category := "salary";
            row_description := "";
            row_date := mk_ts (mk_dt 739000 25200000000) (Some 480);
            row_created_at := mk_ts (mk_dt 739000 25200000000) (Some 480) |};
         {| row_id := 2; row_amount := 7%float; row_category := "bonus";
            row_description := "";
            row_date := mk_ts (mk_dt 739000 32400000000) (Some 480);
            row_created_at := mk_ts (mk_dt 739000 32400000000) (Some 480) |} ];
     sqlite_sequence := 2; app_settings := ∅ |}.

(** A store whose one record, written by the entry form for 2024-04-24,
    exceeds the budget of 100. *)
Definition over_budget_db : Database :=
  {| income_records :=
       [ {| row_id := 1; row_amount := 150%float; row_category := "salary";
            row_description := "";
            row_date := mk_ts (mk_dt 739000 0) (Some 480);
            row_created_at := mk_ts (mk_dt 739000 36000000000) (Some 480) |} ];
     sqlite_sequence := 1;
     app_settings := {[ "monthly_budget"%string := "100"%string ]} |}.


End Examples.

(** More example data. *)

Module Samples.
Import Calendar Models Db.

(** An engine and a [str] that agree on the texts of 0.0 and 100.0. *)
Definition decimal_engine : Engine :=
  {| real_sum := fun xs => List.fold_left PrimFloat.add xs 0%float;
     py_float := fun s =>
       if String.eqb s "0" then Some 0%float
       else if String.eqb s "0.0" then Some 0%float
       else if String.eqb s "100.0" then Some 100%float
       else None;
     strftime_pads_year := false |}.

Definition decimal_repr : Repr :=
  {| py_str := fun x => if (x =? 100)%float then "100.0"%string else "0.0"%string |}.

(** A record object edited to replace row 2, and one whose amount was set
    below 0 after it was read from row 1. *)
Definition gift_update : IncomeRecord :=
  {| id := Some 2; amount := 8%float; category := "gift"; description := "";
     date := naive (mk_dt 739002 0); created_at := naive (mk_dt 739002 0) |}.


End Samples.

(** ** Facts about binary64 comparison and rounding *)

Module FloatFacts.
Import PyFloat.

Lemma SFcompare_antisym x y :
  SFcompare y x = option_map CompOpp (SFcompare x y).
Proof.
  destruct x as [sx|sx| |sx mx ex], y as [sy|sy| |sy my ey]; cbn;
    try reflexivity; try (destruct sx; reflexivity); try (destruct sy; reflexivity);
    try (destruct sx, sy; reflexivity).
  destruct sx, sy; cbn; try reflexivity.
  - rewrite (Z.compare_antisym ex ey).
    destruct (ex ?= ey) eqn:E; cbn; try reflexivity.
    rewrite (Pos.compare_cont_antisym mx my Eq). reflexivity.
  - rewrite (Z.compare_antisym ex ey).
    destruct (ex ?= ey) eqn:E; cbn; try reflexivity.
    rewrite (Pos.compare_cont_antisym mx my Eq). reflexivity.
Qed.

Lemma ltb_false_of_leb x y : (x <=? y)%float = true -> (y <? x)%float = false.
Proof.
  rewrite leb_spec, ltb_spec. unfold SFleb, SFltb.
  rewrite (SFcompare_antisym (Prim2SF x) (Prim2SF y)).
  destruct (SFcompare (Prim2SF x) (Prim2SF y)) as [[]|]; cbn; congruence.
Qed.

Lemma digits2_pos_bounds p :
  2 ^ (Z.pos (digits2_pos p) - 1) <= Z.pos p < 2 ^ Z.pos (digits2_pos p).
Proof.
  induction p as [p IH|p IH|]; cbn [digits2_pos].
  - rewrite Pos2Z.inj_succ. replace (Z.succ (Z.pos (digits2_pos p)) - 1) with (Z.succ (Z.pos (digits2_pos p) - 1)) by lia.
    rewrite !Z.pow_succ_r by lia. lia.
  - rewrite Pos2Z.inj_succ. replace (Z.succ (Z.pos (digits2_pos p)) - 1) with (Z.succ (Z.pos (digits2_pos p) - 1)) by lia.
    rewrite !Z.pow_succ_r by lia. lia.
  - cbn. lia.
Qed.

Lemma digits2_pos_unique p k :
  2 ^ (k - 1) <= Z.pos p < 2 ^ k -> Z.pos (digits2_pos p) = k.
Proof.
  intros [Hl Hu]. pose proof (digits2_pos_bounds p) as [Bl Bu].
  set (d := Z.pos (digits2_pos p)) in *.
  assert (0 < k).
  { destruct (Z_lt_le_dec 0 k); [assumption|].
    destruct (Z.eq_dec k 0) as [->|]; [cbn in Hu; lia|].
    rewrite Z.pow_neg_r in Hu by lia. lia. }
  destruct (Z_lt_le_dec d k) as [Hlt|Hge].
  - assert (2 ^ d <= 2 ^ (k - 1)) by (apply Z.pow_le_mono_r; lia). lia.
  - destruct (Z_lt_le_dec k d) as [Hlt|Hge']; [|lia].
    assert (2 ^ k <= 2 ^ (d - 1)) by (apply Z.pow_le_mono_r; lia). lia.
Qed.

Lemma digits2_pos_le p k : Z.pos p < 2 ^ k -> Z.pos (digits2_pos p) <= k.
Proof.
  intros Hu. pose proof (digits2_pos_bounds p) as [Bl _].
  destruct (Z_lt_le_dec k (Z.pos (digits2_pos p))) as [Hlt|]; [|assumption].
  assert (0 <= k).
  { destruct (Z_lt_le_dec k 0); [|assumption]. rewrite Z.pow_neg_r in Hu by lia. lia. }
  assert (2 ^ k <= 2 ^ (Z.pos (digits2_pos p) - 1)) by (apply Z.pow_le_mono_r; lia).
  lia.
Qed.

Lemma shr_1_m mrs : 0 <= shr_m mrs -> shr_m (shr_1 mrs) = shr_m mrs / 2.
Proof.
  destruct mrs as [m r s]. cbn [shr_m]. intros Hm.
  destruct m as [|p|p]; [reflexivity| |lia].
  destruct p as [p|p|]; cbn [shr_1 shr_m].
  - apply (Z.div_unique (Z.pos p~1) 2 (Z.pos p) 1); lia.
  - apply (Z.div_unique (Z.pos p~0) 2 (Z.pos p) 0); lia.
  - reflexivity.
Qed.

Lemma iter_shr_1_m p : forall mrs,
  0 <= shr_m mrs -> shr_m (SpecFloat.iter_pos shr_1 p mrs) = shr_m mrs / 2 ^ Z.pos p.
Proof.
  induction p as [p IH|p IH|]; intros mrs Hm; cbn [SpecFloat.iter_pos].
  - assert (H1 : 0 <= shr_m (shr_1 mrs)).
    { rewrite shr_1_m by assumption. apply Z.div_pos; lia. }
    assert (H2 : 0 <= shr_m (SpecFloat.iter_pos shr_1 p (shr_1 mrs))).
    { rewrite IH by assumption. apply Z.div_pos; [assumption|]. apply Z.pow_pos_nonneg; lia. }
    rewrite (IH _ H2), (IH _ H1), shr_1_m by assumption.
    rewrite !Z.div_div by (try apply Z.pow_pos_nonneg; lia).
    f_equal. replace (Z.pos p~1) with (1 + Z.pos p + Z.pos p) by lia.
    rewrite !Z.pow_add_r by lia. change (2 ^ 1) with 2. lia.
  - assert (H2 : 0 <= shr_m (SpecFloat.iter_pos shr_1 p mrs)).
    { rewrite IH by assumption. apply Z.div_pos; [assumption|]. apply Z.pow_pos_nonneg; lia. }
    rewrite (IH _ H2), (IH _ Hm).
    rewrite !Z.div_div by (try apply Z.pow_pos_nonneg; lia).
    f_equal. replace (Z.pos p~0) with (Z.pos p + Z.pos p) by lia.
    rewrite Z.pow_add_r by lia. reflexivity.
  - rewrite shr_1_m by assumption. reflexivity.
Qed.

Lemma shr_spec mrs e n :
  0 <= shr_m mrs ->
  shr_m (fst (shr mrs e n)) = (if 0 <? n then shr_m mrs / 2 ^ n else shr_m mrs) /\
  snd (shr mrs e n) = (if 0 <? n then e + n else e).
Proof.
  intros Hm. destruct n as [|p|p]; cbn [shr fst snd]; [split; reflexivity| |split; reflexivity].
  replace (0 <? Z.pos p) with true by (symmetry; apply Z.ltb_lt; lia).
  split; [apply iter_shr_1_m; assumption|reflexivity].
Qed.

Lemma round_nearest_even_bounds m l :
  m <= round_nearest_even m l <= m + 1.
Proof.
  destruct l as [|[]]; cbn [round_nearest_even]; try lia.
  destruct (Z.even m); lia.
Qed.

(** The mantissa of [0.9], which is [mc * 2^-53]. *)
Definition mc : positive := 8106479329266893.

Lemma Prim2SF_F0_9 : Prim2SF F0_9 = S754_finite false mc (-53).
Proof. reflexivity. Qed.

Lemma shr_fexp_spec M E l mrs e' :
  0 <= M -> shr_fexp prec emax M E l = (mrs, e') ->
  let n := Z.max (Zdigits2 M + E - 53) (-1074) - E in
  shr_m mrs = (if 0 <? n then M / 2 ^ n else M) /\
  e' = (if 0 <? n then E + n else E).
Proof.
  intros HM Hs n. unfold shr_fexp in Hs.
  assert (Hr : shr_m (shr_record_of_loc M l) = M) by (destruct l as [|[]]; reflexivity).
  pose proof (shr_spec (shr_record_of_loc M l) E n ltac:(rewrite Hr; exact HM)) as [S1 S2].
  change (fexp prec emax (Zdigits2 M + E) - E) with n in Hs.
  rewrite Hs in S1, S2. cbn [fst snd] in S1, S2. rewrite Hr in S1. split; assumption.
Qed.

Lemma Zdigits2_le r k : 0 <= r < 2 ^ k -> 0 <= k -> Zdigits2 r <= k.
Proof.
  intros [H0 Hu] Hk. destruct r as [|p|p]; cbn [Zdigits2]; [lia| |lia].
  apply digits2_pos_le. assumption.
Qed.

Lemma finite_not_below m e p :
  (p <= m)%positive ->
  SFltb (S754_finite false m e) (S754_finite false p e) = false.
Proof.
  intros Hp. unfold SFltb, SFcompare. rewrite Z.compare_refl.
  change (Pos.compare_cont Eq m p) with (Pos.compare m p).
  destruct (Pos.compare_spec m p); try reflexivity. lia.
Qed.

Lemma SFmul_09_not_above (m : positive) (e : Z) :
  bounded prec emax m e = true ->
  SFltb (S754_finite false m e)
        (SFmul prec emax (S754_finite false m e) (S754_finite false mc (-53))) = false.
Proof.
  intros Hb. unfold bounded, canonical_mantissa in Hb.
  apply andb_prop in Hb as [Hc He]. apply Z.eqb_eq in Hc. apply Z.leb_le in He.
  unfold fexp, emin in Hc. change prec with 53 in *. change emax with 1024 in *.
  pose proof (digits2_pos_bounds m) as [Dl Du].
  set (d := Z.pos (digits2_pos m)) in *.
  assert (Hd0 : 1 <= d) by (unfold d; lia).
  assert (Hcan : (d = 53 /\ -1074 <= e) \/ (d < 53 /\ e = -1074)) by lia.
  assert (Hd53 : d <= 53) by lia.
  assert (Hm53 : Z.pos m < 2 ^ 53).
  { assert (2 ^ d <= 2 ^ 53) by (apply Z.pow_le_mono_r; lia). lia. }
  cbn [SFmul xorb]. unfold binary_round_aux.
  set (M := Z.pos (m * mc)).
  assert (HM : M = Z.pos m * 8106479329266893) by (unfold M, mc; lia).
  set (P := 2 ^ (d - 1)) in *.
  assert (HP : 0 < P) by (apply Z.pow_pos_nonneg; lia).
  assert (HPd : 2 ^ d = 2 * P).
  { unfold P. replace d with (1 + (d - 1)) at 1 by lia.
    rewrite Z.pow_add_r by lia. reflexivity. }
  rewrite HPd in Du.
  assert (Hq53 : M / 2 ^ 53 < Z.pos m).
  { apply Z.div_lt_upper_bound; [lia|]. change (2 ^ 53) with 9007199254740992. lia. }
  assert (Hq0 : 0 <= M / 2 ^ 53) by (apply Z.div_pos; [lia|reflexivity]).
  destruct (shr_fexp 53 1024 M (e + -53) loc_Exact) as [mrs1 e1] eqn:E1.
  apply shr_fexp_spec in E1; [|lia]. cbv zeta in E1. destruct E1 as [Hm1 He1].
  set (r := round_nearest_even (shr_m mrs1) (loc_of_shr_record mrs1)).
  pose proof (round_nearest_even_bounds (shr_m mrs1) (loc_of_shr_record mrs1)) as Hr.
  fold r in Hr.
  destruct (shr_fexp 53 1024 r e1 loc_Exact) as [mrs2 e2] eqn:E2.
  (* the number of digits of the exact product *)
  assert (HdM : (M < P * 2 ^ 53 /\ Zdigits2 M = d + 52) \/
                (P * 2 ^ 53 <= M /\ Zdigits2 M = d + 53)).
  { change (2 ^ 53) with 9007199254740992.
    destruct (Z_lt_le_dec M (P * 9007199254740992)) as [Hlt|Hge]; [left|right];
      (split; [assumption|]); unfold M at 1; cbn [Zdigits2];
      apply digits2_pos_unique; fold M.
    - replace (d + 52 - 1) with ((d - 1) + 52) by lia.
      replace (d + 52) with ((d - 1) + 53) by lia.
      rewrite !Z.pow_add_r by lia. fold P.
      change (2 ^ 52) with 4503599627370496. change (2 ^ 53) with 9007199254740992. lia.
    - replace (d + 53 - 1) with ((d - 1) + 53) by lia.
      replace (d + 53) with ((d - 1) + 54) by lia.
      rewrite !Z.pow_add_r by lia. fold P.
      change (2 ^ 54) with 18014398509481984. change (2 ^ 53) with 9007199254740992. lia. }
  assert (Hcase : (Z.max (Zdigits2 M + (e + -53) - 53) (-1074) - (e + -53) = 53) \/
                  (d = 53 /\ M < P * 2 ^ 53 /\ -1073 <= e /\
                   Z.max (Zdigits2 M + (e + -53) - 53) (-1074) - (e + -53) = 52)) by lia.
  destruct Hcase as [Hn1|(Ed & HMlt & He73 & Hn1)]; rewrite Hn1 in Hm1, He1;
    cbn [Z.ltb Z.compare] in Hm1, He1.
  - (* the product is rounded at the exponent of [m]: at most [m] comes out *)
    assert (Hr0 : 0 <= r <= Z.pos m) by lia.
    assert (Hrd : Zdigits2 r <= 53) by (apply Zdigits2_le; lia).
    apply shr_fexp_spec in E2; [|lia]. cbv zeta in E2.
    replace (0 <? _) with false in E2 by (symmetry; apply Z.ltb_ge; lia).
    destruct E2 as [Hm2 He2]. rewrite Hm2.
    destruct r as [|p|p]; [reflexivity| |reflexivity].
    replace (e2 <=? 1024 - 53) with true by (symmetry; apply Z.leb_le; lia).
    replace e2 with e by lia. apply finite_not_below. lia.
  - (* [m] is normal and the product lost one digit *)
    subst d. assert (EP : P = 2 ^ 52) by (unfold P; rewrite Ed; reflexivity).
    change (2 ^ 52) with 4503599627370496 in EP.
    change (2 ^ 53) with 9007199254740992 in *. rewrite EP in *.
    assert (Hq : 4503599627370496 <= M / 2 ^ 52 < 9007199254740992).
    { change (2 ^ 52) with 4503599627370496. split.
      - apply Z.div_le_lower_bound; lia.
      - apply Z.div_lt_upper_bound; lia. }
    destruct (Z_lt_le_dec r 9007199254740992) as [Hlt|Hge].
    + assert (Hrd : Zdigits2 r = 53).
      { destruct r as [|p|p]; try lia. cbn [Zdigits2]. apply digits2_pos_unique.
        change (2 ^ (53 - 1)) with 4503599627370496.
        change (2 ^ 53) with 9007199254740992. lia. }
      apply shr_fexp_spec in E2; [|lia]. cbv zeta in E2. rewrite Hrd in E2.
      replace (0 <? _) with false in E2 by (symmetry; apply Z.ltb_ge; lia).
      destruct E2 as [Hm2 He2]. rewrite Hm2.
      destruct r as [|p|p]; try lia.
      replace (e2 <=? 1024 - 53) with true by (symmetry; apply Z.leb_le; lia).
      unfold SFltb, SFcompare.
      replace (e ?= e2) with Gt by (symmetry; apply Z.compare_gt_iff; lia).
      reflexivity.
    + assert (Er : r = 9007199254740992) by lia.
      apply shr_fexp_spec in E2; [|lia]. cbv zeta in E2. rewrite Er in E2.
      change (Zdigits2 9007199254740992) with 54 in E2.
      replace (Z.max (54 + e1 - 53) (-1074) - e1) with 1 in E2 by lia.
      cbn [Z.ltb Z.compare] in E2. destruct E2 as [Hm2 He2]. rewrite Hm2.
      change (9007199254740992 / 2 ^ 1) with 4503599627370496.
      replace (e2 <=? 1024 - 53) with true by (symmetry; apply Z.leb_le; lia).
      replace e2 with e by lia. apply finite_not_below. lia.
Qed.

Lemma mul_09_not_above b :
  (0 <? b)%float = true -> (b <? b * F0_9)%float = false.
Proof.
  rewrite !ltb_spec, mul_spec, Prim2SF_F0_9.
  change (Prim2SF 0) with (S754_zero false).
  pose proof (Prim2SF_valid b) as Hv.
  destruct (Prim2SF b) as [s|s| |s m e]; cbn [SFltb SFcompare]; try discriminate.
  - destruct s; [discriminate|]. intros _. reflexivity.
  - destruct s; [discriminate|]. intros _. apply SFmul_09_not_above. exact Hv.
Qed.

Lemma ltb_irrefl x : (x <? x)%float = false.
Proof.
  rewrite ltb_spec. unfold SFltb.
  pose proof (SFcompare_antisym (Prim2SF x) (Prim2SF x)) as H.
  destruct (SFcompare (Prim2SF x) (Prim2SF x)) as [[]|]; cbn in H; congruence.
Qed.

(** A comparison that holds has two numbers as operands, and two numbers
    always compare. *)
Lemma ltb_true_ordered x y :
  (x <? y)%float = true -> (x <=? x)%float = true /\ (y <=? y)%float = true.
Proof.
  rewrite ltb_spec, !leb_spec. unfold SFltb, SFleb.
  destruct (Prim2SF x) as [sx|sx| |sx mx ex], (Prim2SF y) as [sy|sy| |sy my ey];
    cbn; try discriminate; intros _;
    try rewrite !Z.compare_refl;
    repeat match goal with
    | |- context [Pos.compare_cont Eq ?m ?m] =>
        change (Pos.compare_cont Eq m m) with (Pos.compare m m);
        rewrite Pos.compare_refl
    | s : bool |- _ => destruct s
    end; cbn; split; reflexivity.
Qed.

Lemma leb_total x y :
  (x <=? x)%float = true -> (y <=? y)%float = true ->
  (y <=? x)%float = negb (x <? y)%float.
Proof.
  rewrite ltb_spec, !leb_spec. unfold SFltb, SFleb.
  rewrite (SFcompare_antisym (Prim2SF x) (Prim2SF y)).
  destruct (Prim2SF x) as [sx|sx| |sx mx ex], (Prim2SF y) as [sy|sy| |sy my ey];
    cbn; try discriminate; intros _ _;
    repeat match goal with
    | s : bool |- _ => destruct s
    end; cbn; try reflexivity.
  all: destruct (ex ?= ey); cbn; try reflexivity;
    destruct (Pos.compare_cont Eq mx my); reflexivity.
Qed.




Lemma nonneg_not_negative a : (0 <=? a)%float = true -> (a <? 0)%float = false.
Proof. apply ltb_false_of_leb. Qed.

End FloatFacts.

(** * Properties of the record model *)

Module ModelProps.
Import Calendar PyFloat Models FloatFacts.

Lemma new_record_rejected i a c d dt ct :
  (a <? 0)%float = true -> new_IncomeRecord i a c d dt ct = Raise ValueError.
Proof.
  intros Ha. unfold new_IncomeRecord, post_init. cbn [amount].
  rewrite Ha. reflexivity.
Qed.

Lemma new_record_accepted i a c d dt ct :
  (0 <=? a)%float = true ->
  new_IncomeRecord i a c d dt ct =
  Ok {| id := i; amount := a; category := c; description := d;
        date := dt; created_at := ct |}.
Proof.
  intros Ha. unfold new_IncomeRecord, post_init. cbn [amount].
  rewrite (nonneg_not_negative a Ha). reflexivity.
Qed.

(** C6. Constructing a record with [amount < 0] raises the validation
    error ([ValueError]), and with [amount >= 0] it succeeds and yields a
    record holding exactly the amount that was given: a negative amount is
    never replaced by another value. *)
Theorem construction_validates_amount (i : option Z) (a : float)
    (c d : string) (dt ct : timestamp) :
  ((a <? 0)%float = true ->
     new_IncomeRecord i a c d dt ct = Raise ValueError) /\
  ((0 <=? a)%float = true ->
     new_IncomeRecord i a c d dt ct =
     Ok {| id := i; amount := a; category := c; description := d;
           date := dt; created_at := ct |}).
Proof.
  split; intros Ha.
  - apply new_record_rejected, Ha.
  - apply new_record_accepted, Ha.
Qed.

Lemma construction_validates_amount_witness :
  new_IncomeRecord None (-1)%float "pay" "" (naive (mk_dt 739000 0))
    (naive (mk_dt 739000 5))
    = Raise ValueError /\
  new_IncomeRecord None 0%float "pay" "" (naive (mk_dt 739000 0))
    (naive (mk_dt 739000 5))
    = Ok {| id := None; amount := 0%float; category := "pay"; description := "";
            date := naive (mk_dt 739000 0);
            created_at := naive (mk_dt 739000 5) |}.
Proof.
  split.
  - apply (construction_validates_amount None (-1)%float). reflexivity.
  - apply (construction_validates_amount None 0%float). reflexivity.
Defined.

End ModelProps.

(** * Facts about lists *)

Module ListFacts.




Lemma filter_hit_nonempty {A : Type} (f : A -> bool) (l : list A) (x : A) :
  In x l -> f x = true -> List.filter f l <> [].
Proof.
  intros Hin Hf Hnil.
  assert (Hx : In x (List.filter f l)) by (apply List.filter_In; split; assumption).
  rewrite Hnil in Hx. destruct Hx.
Qed.

End ListFacts.

(** * The order of the ISO texts *)

Module TextOrder.
Import Calendar.

Lemma text_leb_naive (a b : datetime) :
  text_leb (naive a) (naive b) = dt_leb a b.
Proof.
  unfold text_leb, dt_leb, naive. cbn [wall utcoffset suffix_key]. lia.
Qed.


Lemma suffix_key_lower (o : option Z) : -1 <= suffix_key o.
Proof.
  unfold suffix_key. destruct o as [x|]; [|lia].
  destruct (Z.ltb_spec x 0); lia.
Qed.

Lemma text_leb_refl (a : timestamp) : text_leb a a = true.
Proof. unfold text_leb. lia. Qed.

Lemma text_leb_trans (a b c : timestamp) :
  text_leb a b = true -> text_leb b c = true -> text_leb a c = true.
Proof. unfold text_leb. lia. Qed.

Lemma text_leb_total (a b : timestamp) :
  text_leb a b = true \/ text_leb b a = true.
Proof. unfold text_leb. lia. Qed.

Lemma text_ltb_leb (a b : timestamp) :
  text_ltb a b = true -> text_leb a b = true.
Proof. unfold text_ltb, text_leb. lia. Qed.

Lemma text_ltb_trans (a b c : timestamp) :
  text_ltb a b = true -> text_ltb b c = true -> text_ltb a c = true.
Proof. unfold text_ltb, text_leb. lia. Qed.


Lemma same_zone_leb (a b : timestamp) :
  utcoffset a = utcoffset b -> text_leb a b = dt_leb (wall a) (wall b).
Proof.
  intros E. unfold text_leb, dt_leb. rewrite E. lia.
Qed.


(** An order by a key, and among equal keys by another order. *)
Section Lex.
Context {T K : Type} (le : K -> K -> bool) (key : T -> K) (rest : T -> T -> bool).
Hypothesis le_total : forall x y, le x y = true \/ le y x = true.
Hypothesis le_trans :
  forall x y z, le x y = true -> le y z = true -> le x z = true.

Definition lex (a b : T) : bool :=
  negb (le (key b) (key a)) || (le (key a) (key b) && rest a b).

Lemma lex_total :
  (forall a b, rest a b = true \/ rest b a = true) ->
  forall a b, lex a b = true \/ lex b a = true.
Proof.
  intros Hrest a b. unfold lex.
  pose proof (le_total (key a) (key b)). pose proof (Hrest a b).
  destruct (le (key a) (key b)), (le (key b) (key a)),
    (rest a b), (rest b a); cbn in *; intuition congruence.
Qed.

Lemma lex_trans :
  (forall a b c, rest a b = true -> rest b c = true -> rest a c = true) ->
  forall a b c, lex a b = true -> lex b c = true -> lex a c = true.
Proof.
  intros Hrest a b c. unfold lex.
  pose proof (le_trans (key a) (key b) (key c)).
  pose proof (le_trans (key c) (key b) (key a)).
  pose proof (le_trans (key b) (key a) (key c)).
  pose proof (le_trans (key c) (key a) (key b)).
  pose proof (le_trans (key b) (key c) (key a)).
  pose proof (le_trans (key a) (key c) (key b)).
  pose proof (le_total (key a) (key b)).
  pose proof (le_total (key b) (key c)).
  pose proof (le_total (key a) (key c)).
  pose proof (Hrest a b c).
  destruct (le (key a) (key b)), (le (key b) (key a)),
    (le (key b) (key c)), (le (key c) (key b)),
    (le (key a) (key c)), (le (key c) (key a)),
    (rest a b), (rest b c), (rest a c); cbn in *; intuition congruence.
Qed.

End Lex.

Lemma text_geb_total (x y : timestamp) :
  text_leb y x = true \/ text_leb x y = true.
Proof. destruct (text_leb_total x y); auto. Qed.

Lemma text_geb_trans (x y z : timestamp) :
  text_leb y x = true -> text_leb z y = true -> text_leb z x = true.
Proof. intros A B. exact (text_leb_trans z y x B A). Qed.

End TextOrder.

(** * Properties of the record store *)

Module StoreProps.
Import Calendar PyFloat Sqlite Models Db FloatFacts ModelProps Examples.

Lemma filter_no_match (i : Z) (rows : list Row) :
  (forall r, In r rows -> row_id r <> i) ->
  List.filter (fun r => row_id r =? i) rows = [].
Proof.
  induction rows as [|r rows IH]; intros Hno; [reflexivity|].
  cbn [List.filter].
  replace (row_id r =? i) with false
    by (symmetry; apply Z.eqb_neq, Hno; left; reflexivity).
  apply IH. intros r' Hr'. apply Hno. right. exact Hr'.
Qed.




(** C10. [update_income] on a record whose id is [None] returns [False]
    at once and leaves the database as it was, whatever the other fields
    of the record hold. *)
Theorem update_without_id_is_refused (db : Database) (a : float)
    (c d : string) (dt ct : timestamp) :
  update_income db {| id := None; amount := a; category := c;
                      description := d; date := dt; created_at := ct |}
  = Ok (db, false).
Proof.
  unfold update_income. cbn [id]. reflexivity.
Qed.

(** On a store whose counter is a 64-bit integer, as every store of the
    engine is, the ids that bind are the 64-bit integers. *)
Lemma binds_int (db : Database) (i : Z) :
  sqlite_int (sqlite_sequence db) = true ->
  sqlite_int (max_rowid (income_records db)) = true ->
  binds db i = sqlite_int i.
Proof.
  unfold binds, sqlite_int. lia.
Qed.

Lemma binds_of_int (db : Database) (i : Z) :
  sqlite_int i = true -> binds db i = true.
Proof.
  unfold binds. intros ->. reflexivity.
Qed.




Lemma max_rowid_bound (rows : list Row) (r : Row) :
  In r rows -> row_id r <= max_rowid rows.
Proof.
  induction rows as [|r' rows IH]; intros Hin; [destruct Hin|].
  cbn [max_rowid List.fold_right]. fold (max_rowid rows).
  destruct Hin as [->|Hin]; [lia|]. specialize (IH Hin). lia.
Qed.


Lemma filter_hits_length (i : Z) (rows : list Row) (r : Row) :
  row_id r = i ->
  Nat.ltb 0 (length (List.filter (fun r' => row_id r' =? i) (rows ++ [r]))) = true.
Proof.
  intros Hr. rewrite List.filter_app, List.length_app. cbn [List.filter].
  rewrite Hr, Z.eqb_refl. cbn [length]. apply Nat.ltb_lt. lia.
Qed.

Lemma max_rowid_nonneg (rows : list Row) : 0 <= max_rowid rows.
Proof.
  induction rows as [|r rows IH]; unfold max_rowid in *; cbn [List.fold_right]; lia.
Qed.






End StoreProps.

(** * Properties of the aggregation engine *)

Module AggregationProps.
Import Calendar CalendarFacts PyFloat Sqlite Models Db FloatFacts ModelProps
  ListFacts TextOrder.

Section WithEngine.
Context `{Engine}.






(** ** Daily average *)



End WithEngine.




(** C4. Two records entered for one calendar day, 2024-04-24 at 07:00 and
    at 09:00 of UTC+8, with the amounts 5 and 7: the engine reads the first
    text as a day earlier, counts two days and [get_daily_average] returns
    6.0, where the total over the one day that has records is 12.0. *)
Theorem daily_average_counts_utc_days :
  List.map (fun r => day_of (wall (row_date r)))
    (income_records Examples.one_day_db) = [739000; 739000] /\
  List.map (fun r => sql_date (row_date r))
    (income_records Examples.one_day_db) = [Some 738999; Some 739000] /\
  @get_total_income Examples.scan_order_engine Examples.one_day_db = 12%float /\
  @get_daily_average Examples.scan_order_engine Examples.one_day_db = 6%float.
Proof.
  repeat split; vm_compute; reflexivity.
Qed.

End AggregationProps.

(** * Properties of the forecast engine *)

Module ForecastProps.
Import Calendar CalendarFacts PyFloat Models Db FloatFacts ModelProps.

Lemma status_of_positive_budget (budget p : float) :
  (0 <? budget)%float = true ->
  budget_status budget p =
  if (budget <? p)%float then "danger"%string
  else if (budget * F0_9 <? p)%float then "warning"%string
  else "safe"%string.
Proof. intros Hb. unfold budget_status. rewrite Hb. reflexivity. Qed.

Lemma not_above_iff_below (budget p : float) :
  (0 <? budget)%float = true -> (budget * F0_9 <? p)%float = true ->
  (p <=? budget)%float = negb (budget <? p)%float.
Proof.
  intros Hb Hp.
  destruct (ltb_true_ordered _ _ Hb) as [_ Hbb].
  destruct (ltb_true_ordered _ _ Hp) as [_ Hpp].
  apply leb_total; assumption.
Qed.

(** The thresholds of step 4, for any budget and any prediction. *)
Lemma budget_status_thresholds (budget p : float) :
  ((0 <? budget)%float = true ->
     (budget_status budget p = "danger"%string <-> (budget <? p)%float = true) /\
     (budget_status budget p = "warning"%string <->
        (budget * F0_9 <? p)%float = true /\ (p <=? budget)%float = true) /\
     (budget_status budget p = "safe"%string <->
        (budget <? p)%float = false /\
        ~ ((budget * F0_9 <? p)%float = true /\ (p <=? budget)%float = true)) /\
     budget_status budget budget =
       (if (budget * F0_9 <? budget)%float then "warning"%string else "safe"%string) /\
     budget_status budget (budget * F0_9)%float = "safe"%string) /\
  ((budget <=? 0)%float = true -> budget_status budget p = "safe"%string).
Proof.
  split.
  - intros Hb. rewrite !(status_of_positive_budget _ _ Hb).
    split; [|split; [|split; [|split]]].
    + destruct (budget <? p)%float; [split; reflexivity|].
      destruct (budget * F0_9 <? p)%float; split; discriminate.
    + destruct (budget * F0_9 <? p)%float eqn:Hw.
      * rewrite (not_above_iff_below _ _ Hb Hw).
        destruct (budget <? p)%float; cbn [negb].
        -- split; [discriminate|intros [_ Hf]; discriminate Hf].
        -- split; [intros _; split; reflexivity|reflexivity].
      * destruct (budget <? p)%float;
          (split; [discriminate|intros [Hf _]; discriminate Hf]).
    + destruct (budget * F0_9 <? p)%float eqn:Hw.
      * rewrite (not_above_iff_below _ _ Hb Hw).
        destruct (budget <? p)%float; cbn [negb].
        -- split; [discriminate|intros [Hf _]; discriminate Hf].
        -- split; [discriminate|].
           intros [_ Hn]. exfalso. apply Hn. split; reflexivity.
      * destruct (budget <? p)%float.
        -- split; [discriminate|intros [Hf _]; discriminate Hf].
        -- split; [|reflexivity].
           intros _. split; [reflexivity|]. intros [Hf _]. discriminate Hf.
    + rewrite ltb_irrefl. reflexivity.
    + rewrite (mul_09_not_above _ Hb), ltb_irrefl. reflexivity.
  - intros Hb. unfold budget_status.
    rewrite (ltb_false_of_leb _ _ Hb). reflexivity.
Qed.

Section WithEngine.
Context `{Engine}.

Lemma get_monthly_budget_ok (db : Database) :
  exists budget : float, get_monthly_budget db = Ok budget.
Proof.
  unfold get_monthly_budget, get_setting.
  destruct (app_settings db !! "monthly_budget"%string) as [val|];
    destruct (py_float _); eexists; reflexivity.
Qed.

(** C1, as the code has it. At every [now] that is not in December 9999,
    the forecast returns
    a result in which [remaining_days] is the length of the month minus the
    day of the month, [current_month_spending] is the sum from the first
    instant of the month to [now], [daily_average] is the blend

      [(spent / passed) * min(0.8, passed / 15.0)
        + historical * (1 - min(0.8, passed / 15.0))]

    when more than one day has passed and the historical daily average
    itself on the first day, and [predicted_total] is the spending so far
    plus [daily_average * remaining_days]. *)
Theorem forecast_blend_and_prediction (db : Database) (now : datetime) :
  valid_datetime now ->
  ~ (dt_year now = 9999 /\ dt_month now = 12) ->
  exists f : Forecast,
    get_spending_forecast db now = Ok f /\
    let passed_days := dt_day now in
    let spent := current_month_spending f in
    let historical := get_daily_average db in
    let weight_current := py_min F0_8 (float_of_int passed_days / F15)%float in
    1 <= passed_days /\
    remaining_days f = days_in_month (dt_year now) (dt_month now) - passed_days /\
    spent = windowed_total db (mk_dt (ymd2ord (dt_year now) (dt_month now) 1) 0) now /\
    (1 < passed_days ->
       daily_average f =
       ((spent / float_of_int passed_days) * weight_current
        + historical * (1 - weight_current))%float) /\
    (passed_days = 1 -> daily_average f = historical) /\
    predicted_total f =
      (spent + daily_average f * float_of_int (remaining_days f))%float.
Proof.
  intros [Hord Hus] Hdec.
  pose proof (ord2ymd_range (ordinal now) Hord) as Hrange.
  unfold get_spending_forecast, dt_year, dt_month, dt_day in *.
  destruct (ord2ymd (ordinal now)) as [[y m] d] eqn:Eymd.
  cbn [fst snd] in *. destruct Hrange as (Hy & Hm & Hd).
  pose proof (days_in_month_bounds y m Hm) as Hlen.
  set (y' := if m =? 12 then y + 1 else y).
  set (m' := if m =? 12 then 1 else m + 1).
  assert (Hnext : (if m =? 12 then new_datetime (y + 1) 1 1 (micros now)
                   else new_datetime y (m + 1) 1 (micros now))
                  = Ok (mk_dt (ymd2ord y' m' 1) (micros now))).
  { unfold y', m'. destruct (Z.eqb_spec m 12) as [E|E].
    - apply new_datetime_ok; [lia|lia|].
      pose proof (days_in_month_bounds (y + 1) 1 ltac:(lia)). lia.
    - apply new_datetime_ok; [lia|lia|].
      pose proof (days_in_month_bounds y (m + 1) ltac:(lia)). lia. }
  rewrite Hnext. cbn [mbind result_bind].
  pose proof (pred_next_month y m Hm) as Hpred. fold y' m' in Hpred.
  pose proof (ymd2ord_bounds y m (days_in_month y m) Hy Hm ltac:(lia)) as Hb.
  assert (Hy' : 1 <= y' <= 9999) by (unfold y'; destruct (Z.eqb_spec m 12); lia).
  assert (Hm' : 1 <= m' <= 12) by (unfold m'; destruct (Z.eqb_spec m 12); lia).
  pose proof (days_in_month_bounds y' m' Hm') as Hlen'.
  pose proof (ymd2ord_bounds y' m' 1 Hy' Hm' ltac:(lia)) as Hb'.
  rewrite add_days_ok by (cbn [ordinal]; lia).
  cbn [mbind result_bind ordinal micros].
  replace (ymd2ord y' m' 1 + -1) with (ymd2ord y' m' 1 - 1) by lia.
  pose proof (last_day_of_month y m ltac:(lia) Hm) as Hlast.
  fold y' m' in Hlast. rewrite Hlast. cbn [snd].
  rewrite (new_datetime_ok y m 1 0) by lia.
  cbn [mbind result_bind].
  destruct (get_monthly_budget_ok db) as [budget ->].
  cbn [mbind result_bind].
  eexists. split; [reflexivity|].
  cbn [current_month_spending remaining_days daily_average predicted_total].
  repeat split.
  - lia.
  - intros Hgt. unfold blended_daily_avg.
    replace (1 <? d) with true by lia. reflexivity.
  - intros ->. reflexivity.
Qed.

(** A forecast that is returned carries the status that step 4 gives to its
    own prediction and the stored budget. *)
Lemma forecast_status (db : Database) (now : datetime) (f : Forecast) :
  get_spending_forecast db now = Ok f ->
  exists budget : float,
    get_monthly_budget db = Ok budget /\
    status f = budget_status budget (predicted_total f).
Proof.
  unfold get_spending_forecast. intros Hrun.
  destruct (if dt_month now =? 12 then _ else _) as [next|e];
    cbn [mbind result_bind] in Hrun; [|discriminate].
  destruct (add_days next (-1)) as [last|e];
    cbn [mbind result_bind] in Hrun; [|discriminate].
  destruct (new_datetime (dt_year now) (dt_month now) 1 0) as [start|e];
    cbn [mbind result_bind] in Hrun; [|discriminate].
  destruct (get_monthly_budget db) as [budget|e];
    cbn [mbind result_bind] in Hrun; [|discriminate].
  exists budget. split; [reflexivity|].
  assert (E : f = match Ok f with Ok g => g | Raise _ => f end) by reflexivity.
  rewrite <- Hrun in E. rewrite E. reflexivity.
Qed.

(** C2. The forecast that [get_spending_forecast] returns carries a status
    that classifies its own [predicted_total] against the budget that is
    stored. With a budget above 0 the status is "danger" exactly when
    [predicted_total > budget], "warning" exactly when
    [budget * 0.9 < predicted_total <= budget], and "safe" otherwise; a
    prediction equal to the budget is "warning" when it exceeds
    [budget * 0.9] and "safe" when it does not, and a prediction equal to
    [budget * 0.9] is "safe". With a budget of 0 or less the status is
    "safe" for every prediction. *)
Theorem forecast_status_thresholds (db : Database) (now : datetime)
    (f : Forecast) :
  get_spending_forecast db now = Ok f ->
  exists budget : float,
    get_monthly_budget db = Ok budget /\
    let p := predicted_total f in
    ((0 <? budget)%float = true ->
       (status f = "danger"%string <-> (budget <? p)%float = true) /\
       (status f = "warning"%string <->
          (budget * F0_9 <? p)%float = true /\ (p <=? budget)%float = true) /\
       (status f = "safe"%string <->
          (budget <? p)%float = false /\
          ~ ((budget * F0_9 <? p)%float = true /\ (p <=? budget)%float = true)) /\
       (p = budget ->
          status f =
          (if (budget * F0_9 <? budget)%float then "warning"%string
           else "safe"%string)) /\
       (p = (budget * F0_9)%float -> status f = "safe"%string)) /\
    ((budget <=? 0)%float = true -> status f = "safe"%string).
Proof.
  intros Hrun. destruct (forecast_status db now f Hrun) as (budget & Hb & Hs).
  exists budget. split; [exact Hb|]. intros p. rewrite Hs. fold p.
  destruct (budget_status_thresholds budget p) as [Hpos Hzero].
  split; [|exact Hzero].
  intros Hbudget. destruct (Hpos Hbudget) as (Hd & Hw & Hsafe & Heq & H09).
  split; [exact Hd|]. split; [exact Hw|]. split; [exact Hsafe|].
  split.
  - intros ->.
    destruct (budget_status_thresholds budget budget) as [Hpos' _].
    apply (Hpos' Hbudget).
  - intros ->.
    destruct (budget_status_thresholds budget (budget * F0_9)%float) as [Hpos' _].
    apply (Hpos' Hbudget).
Qed.

End WithEngine.

(** The forecast for a store whose one record of 150 exceeds the budget of
    100, at noon of 2024-04-28. *)
Definition over_budget_forecast : Forecast :=
  Eval vm_compute in
    match @get_spending_forecast Examples.scan_order_engine
            Examples.over_budget_db (mk_dt 739004 43200000000) with
    | Ok f => f
    | Raise _ => {| predicted_total := 0; remaining_days := 0;
                    daily_average := 0; status := "";
                    current_month_spending := 0 |}
    end.

Lemma forecast_status_witness :
  @get_spending_forecast Examples.scan_order_engine Examples.over_budget_db
     (mk_dt 739004 43200000000) = Ok over_budget_forecast /\
  @get_monthly_budget Examples.scan_order_engine Examples.over_budget_db
    = Ok 100%float /\
  (100 <? predicted_total over_budget_forecast)%float = true /\
  status over_budget_forecast = "danger"%string.
Proof.
  assert (Hrun : @get_spending_forecast Examples.scan_order_engine
                   Examples.over_budget_db (mk_dt 739004 43200000000)
                 = Ok over_budget_forecast) by (vm_compute; reflexivity).
  destruct (@forecast_status_thresholds Examples.scan_order_engine
              Examples.over_budget_db (mk_dt 739004 43200000000)
              over_budget_forecast Hrun) as (budget & Hb & Hpos & _).
  assert (Hbudget : budget = 100%float).
  { apply (f_equal (fun r => match r with Ok x => x | Raise _ => 0%float end)) in Hb.
    vm_compute in Hb. symmetry. exact Hb. }
  subst budget.
  destruct (Hpos eq_refl) as (Hdanger & _).
  split; [exact Hrun|]. split; [exact Hb|]. split; [reflexivity|].
  apply Hdanger. reflexivity.
Defined.

Lemma forecast_witness :
  exists f : Forecast,
    @get_spending_forecast Examples.scan_order_engine Examples.three_records_db
       (mk_dt 739004 43200000000) = Ok f /\
    remaining_days f = 30 - 28 /\
    predicted_total f =
      (current_month_spending f
       + daily_average f * float_of_int (remaining_days f))%float.
Proof.
  destruct (@forecast_blend_and_prediction Examples.scan_order_engine
              Examples.three_records_db (mk_dt 739004 43200000000))
    as (f & Hrun & _ & Hrem & _ & _ & _ & Hpred).
  - unfold valid_datetime, MAXORDINAL, MICROS_PER_DAY. cbn. lia.
  - intros [Hyear _]. vm_compute in Hyear. discriminate Hyear.
  - exists f. split; [exact Hrun|]. split; [|exact Hpred].
    rewrite Hrem. vm_compute. reflexivity.
Defined.

(** On 9999-12-31 the first day of the next month is in the year 10000,
    which is outside the calendar: the forecast raises. *)
Lemma forecast_raises_in_last_december :
  valid_datetime (mk_dt 3652059 0) /\
  @get_spending_forecast Examples.scan_order_engine Examples.three_records_db
     (mk_dt 3652059 0) = Raise ValueError.
Proof.
  split.
  - unfold valid_datetime, MAXORDINAL, MICROS_PER_DAY. cbn. lia.
  - vm_compute. reflexivity.
Qed.

End ForecastProps.

(** * Properties of the daily trend *)

Module TrendProps.
Import Calendar CalendarFacts PyFloat Sqlite Models Db ListFacts.

(** One turn of the loop of [get_daily_trend]. *)
Lemma fill_days_unfold get end_date current dates values :
  fill_days get end_date current dates values =
  if dt_leb current end_date then
    match add_days current 1 with
    | Ok next =>
        fill_days get end_date next (dates ++ [day_of current])
          (values ++ [get current])
    | Raise e => Raise e
    end
  else Ok (dates, values).
Proof.
  funelim (fill_days get end_date current dates values).
  - rewrite e. reflexivity.
  - rewrite Hle, Hnext. reflexivity.
  - rewrite Hle, e1. reflexivity.
Qed.


Section WithEngine.
Context `{Engine}.






End WithEngine.

(** C3. The one record of the store is the one that the entry form writes
    for 2024-04-24, midnight of that day at UTC+8, with the amount 5. Asked
    at noon of 2024-04-25 for two days back, [get_daily_trend] reports the
    5 on 2024-04-23, the day of that instant at UTC, and [0.0] on
    2024-04-24. Asked for one day back it reports [0.0] on both days: the
    query starts at noon of 2024-04-24, the loop at that day. *)
Theorem daily_trend_misplaces_the_record :
  List.map (fun r => day_of (wall (row_date r)))
    (income_records Examples.form_record_db) = [739000] /\
  @get_daily_trend Examples.scan_order_engine Examples.form_record_db
     (mk_dt 739001 43200000000) 2
    = Ok ([738999; 739000; 739001], [5%float; 0%float; 0%float]) /\
  @get_daily_trend Examples.scan_order_engine Examples.form_record_db
     (mk_dt 739001 43200000000) 1
    = Ok ([739000; 739001], [0%float; 0%float]).
Proof. repeat split; vm_compute; reflexivity. Qed.


End TrendProps.

(** * Properties of the statistics payload *)

Module PayloadProps.
Import Calendar CalendarFacts PyFloat Models Db.

Section WithEngine.
Context `{Engine}.

(** C5, as the code has it. [get_statistics] returns a dictionary with
    exactly the four keys [total_income], [yearly_income], [monthly_income]
    and [daily_average]: the total, the sum over the calendar year of the
    first clock reading, the sum over the 30 days before the second clock
    reading, and the daily average. The forecast and the record count are
    not part of it; [get_spending_forecast] and [get_record_count] give
    them. The second clock reading has to be at least 30 days after the
    first day of the calendar. *)
Theorem statistics_has_four_fields (db : Database) (now1 now2 : datetime) :
  valid_datetime now1 -> valid_datetime now2 -> 30 < ordinal now2 ->
  exists payload : gmap string float,
    get_statistics db now1 now2 = Ok payload /\
    forall (key : string) (value : float),
      payload !! key = Some value <->
      (key = "total_income"%string /\ value = get_total_income db) \/
      (key = "yearly_income"%string /\
       value = windowed_total db (mk_dt (ymd2ord (dt_year now1) 1 1) 0)
                 (mk_dt (ymd2ord (dt_year now1) 12 31) 86399000000)) \/
      (key = "monthly_income"%string /\
       value = windowed_total db (mk_dt (ordinal now2 - 30) (micros now2)) now2) \/
      (key = "daily_average"%string /\ value = get_daily_average db).
Proof.
  intros [Hord1 Hus1] [Hord2 Hus2] H30.
  pose proof (ord2ymd_range (ordinal now1) Hord1) as Hrange.
  unfold get_statistics, get_yearly_income, get_monthly_income, dt_year in *.
  destruct (ord2ymd (ordinal now1)) as [[y m] d]. cbn [fst snd default] in *.
  destruct Hrange as (Hy & _ & _).
  pose proof (days_in_month_bounds y 1 ltac:(lia)) as Hjan.
  change (days_in_month y 12) with 31.
  rewrite (new_datetime_ok y 1 1 0) by lia.
  rewrite (new_datetime_ok y 12 31 86399000000)
    by (change (days_in_month y 12) with 31; lia).
  rewrite add_days_ok by lia.
  cbn [mbind result_bind].
  replace (ordinal now2 + -30) with (ordinal now2 - 30) by lia.
  eexists. split; [reflexivity|].
  intros key value.
  rewrite !lookup_insert_Some, lookup_empty.
  split.
  - intros [[<- <-]|[_ [[<- <-]|[_ [[<- <-]|[_ [[<- <-]|[_ Hf]]]]]]]];
      [tauto|tauto|tauto|tauto|discriminate Hf].
  - intros [[-> ->]|[[-> ->]|[[-> ->]|[-> ->]]]].
    + right. split; [discriminate|]. right. split; [discriminate|].
      right. split; [discriminate|]. left. split; reflexivity.
    + right. split; [discriminate|]. right. split; [discriminate|].
      left. split; reflexivity.
    + right. split; [discriminate|]. left. split; reflexivity.
    + left. split; reflexivity.
Qed.

End WithEngine.

Lemma statistics_witness :
  exists payload : gmap string float,
    @get_statistics Examples.scan_order_engine Examples.three_records_db
       (mk_dt 739004 0) (mk_dt 739004 5) = Ok payload /\
    payload !! "daily_average"%string
      = Some (@get_daily_average Examples.scan_order_engine
                Examples.three_records_db).
Proof.
  destruct (@statistics_has_four_fields Examples.scan_order_engine
              Examples.three_records_db (mk_dt 739004 0) (mk_dt 739004 5))
    as (payload & Hrun & Hkeys).
  - unfold valid_datetime, MAXORDINAL, MICROS_PER_DAY. cbn. lia.
  - unfold valid_datetime, MAXORDINAL, MICROS_PER_DAY. cbn. lia.
  - cbn. lia.
  - exists payload. split; [exact Hrun|].
    apply Hkeys. right. right. right. split; reflexivity.
Defined.

(** The payload computed for a store with three records has neither a
    record count nor any field of the forecast. *)
Lemma statistics_lack_count_and_forecast :
  ~ (exists (payload : gmap string float) (count : float),
       @get_statistics Examples.scan_order_engine Examples.three_records_db
          (mk_dt 739004 0) (mk_dt 739004 5) = Ok payload /\
       payload !! "record_count"%string = Some count).
Proof.
  intros (payload & count & Hrun & Hcount).
  assert (Hnone : (p ← @get_statistics Examples.scan_order_engine
                         Examples.three_records_db (mk_dt 739004 0) (mk_dt 739004 5);
                   Ok (p !! "record_count"%string)) = Ok None)
    by (vm_compute; reflexivity).
  rewrite Hrun in Hnone. cbn [mbind result_bind] in Hnone.
  rewrite Hcount in Hnone. discriminate Hnone.
Qed.

End PayloadProps.

(** ** The calendar, from day numbers to dates *)

Module CalendarInverse.
Import Calendar CalendarFacts.

(** Every day number from 1 on lies in one year. *)
Lemma ordinal_in_a_year (n : Z) :
  1 <= n ->
  exists y, 1 <= y /\ days_before_year y < n <= days_before_year (y + 1).
Proof.
  intros Hn. replace n with (1 + Z.of_nat (Z.to_nat (n - 1))) by lia.
  induction (Z.to_nat (n - 1)) as [|k (y & Hy & Hlo & Hhi)].
  - exists 1. change (days_before_year 1) with 0.
    change (days_before_year (1 + 1)) with 365. lia.
  - destruct (Z.eq_dec (1 + Z.of_nat k) (days_before_year (y + 1))) as [E|E].
    + exists (y + 1). split; [lia|].
      pose proof (days_before_year_succ (y + 1)) as Hs.
      destruct (is_leap (y + 1)); lia.
    + exists y. lia.
Qed.

Lemma year_of_ordinal (n y : Z) :
  1 <= y -> days_before_year y < n <= days_before_year (y + 1) ->
  ord2ymd n =
  let k := n - days_before_year y - 1 in
  if k =? 365 then (y, 12, 31)
  else let '(m, d) := month_day (is_leap y) k in (y, m, d).
Proof.
  intros Hy Hn. cbv zeta.
  rewrite <- ord2ymd_year_start.
  - f_equal. lia.
  - assumption.
  - rewrite days_before_year_succ in Hn. lia.
Qed.

(** The year of a day number is the year whose days it lies among. *)
Lemma year_of_ordinal_iff (n y : Z) :
  1 <= n -> 1 <= y ->
  fst (fst (ord2ymd n)) = y <->
  days_before_year y < n <= days_before_year (y + 1).
Proof.
  intros Hn Hy.
  assert (Hfst : forall y', 1 <= y' ->
            days_before_year y' < n <= days_before_year (y' + 1) ->
            fst (fst (ord2ymd n)) = y').
  { intros y' Hy' Hr. rewrite (year_of_ordinal n y' Hy' Hr). cbv zeta.
    destruct (_ =? 365); [reflexivity|]. destruct (month_day _ _). reflexivity. }
  split; [|apply Hfst; assumption].
  intros E. destruct (ordinal_in_a_year n Hn) as (y' & Hy' & Hr).
  rewrite (Hfst y' Hy' Hr) in E. subst y'. exact Hr.
Qed.

Definition month_day_valid (leap : bool) (k : Z) : bool :=
  let '(m, d) := month_day leap k in
  (1 <=? m) && (m <=? 12) && (1 <=? d)
  && (d <=? DAYS_IN_MONTH m + (if (m =? 2) && leap then 1 else 0))
  && (DAYS_BEFORE_MONTH m + (if (2 <? m) && leap then 1 else 0) + d - 1 =? k).

Lemma month_day_valid_all leap :
  List.forallb (month_day_valid leap) (Zrange 0 365) = true.
Proof. destruct leap; vm_compute; reflexivity. Qed.

(** [ymd2ord] is the inverse of [ord2ymd]: the date computed for a day
    number is a date of the calendar, and its day number is the one given. *)
Lemma ymd2ord_ord2ymd (n : Z) :
  1 <= n ->
  let '(y, m, d) := ord2ymd n in
  1 <= y /\ 1 <= m <= 12 /\ 1 <= d <= days_in_month y m /\ ymd2ord y m d = n.
Proof.
  intros Hn. destruct (ordinal_in_a_year n Hn) as (y & Hy & Hr).
  rewrite (year_of_ordinal n y Hy Hr). cbv zeta.
  pose proof (days_before_year_succ y) as Hs.
  set (k := n - days_before_year y - 1) in *.
  destruct (Z.eqb_spec k 365) as [E|E].
  - unfold ymd2ord, days_before_month, days_in_month.
    change (DAYS_BEFORE_MONTH 12) with 334. change (DAYS_IN_MONTH 12) with 31.
    change (2 <? 12) with true. change (12 =? 2) with false. cbn [andb].
    destruct (is_leap y); lia.
  - pose proof (forallb_Zrange _ 0 365 (month_day_valid_all (is_leap y)) k
                  ltac:(destruct (is_leap y); lia)) as Hmd.
    unfold month_day_valid in Hmd.
    destruct (month_day (is_leap y) k) as [m d].
    repeat (apply andb_prop in Hmd as [Hmd ?]).
    unfold ymd2ord, days_before_month, days_in_month.
    assert (Hdim : (if (m =? 2) && is_leap y then 29 else DAYS_IN_MONTH m)
                   = DAYS_IN_MONTH m + (if (m =? 2) && is_leap y then 1 else 0)).
    { destruct ((m =? 2) && is_leap y) eqn:E2; [|lia].
      apply andb_prop in E2 as [E2 _]. apply Z.eqb_eq in E2. subst m. reflexivity. }
    rewrite Hdim. lia.
Qed.

End CalendarInverse.

(** ** Facts about the example data *)

Module SampleFacts.
Import Calendar Models Db Examples.

Lemma three_records_valid (r : Row) :
  In r (income_records three_records_db) -> valid_datetime (wall (row_date r)).
Proof.
  cbn. intros [<-|[<-|[<-|[]]]]; unfold valid_datetime, MAXORDINAL, MICROS_PER_DAY;
    cbn; lia.
Qed.

Lemma sample_now_valid : valid_datetime (mk_dt 739004 43200000000).
Proof. unfold valid_datetime, MAXORDINAL, MICROS_PER_DAY. cbn. lia. Qed.

End SampleFacts.

(** * The table of records under insertions, updates and deletions *)

Module StoreInvariants.
Import Calendar PyFloat Sqlite Models Db FloatFacts ListFacts StoreProps
  Examples Samples.

(** What PRIMARY KEY and AUTOINCREMENT promise of [income_records]: no two
    rows carry the same id, every id is positive, and the counter of
    [sqlite_sequence] is not below any of them. *)
Definition ids_ok (db : Database) : Prop :=
  NoDup (List.map row_id (income_records db)) /\
  Forall (fun r => 1 <= row_id r <= sqlite_sequence db) (income_records db).

(** The record that [from_db_row] builds of a row. *)
Definition record_of_row (r : Row) : IncomeRecord :=
  {| id := Some (row_id r); amount := row_amount r; category := row_category r;
     description := row_description r; date := row_date r;
     created_at := row_created_at r |}.

Lemma add_income_inv (db db' : Database) (record : IncomeRecord) (i : Z) :
  add_income db record = Ok (db', i) ->
  isnan (amount record) = false /\
  i = Z.max (max_rowid (income_records db)) (sqlite_sequence db) + 1 /\
  db' = {| income_records := income_records db ++
             [{| row_id := i; row_amount := amount record;
                 row_category := category record;
                 row_description := description record;
                 row_date := date record;
                 row_created_at := created_at record |}];
           sqlite_sequence := i;
           app_settings := app_settings db |}.
Proof.
  unfold add_income. destruct (isnan (amount record)); [discriminate|].
  intros [= <- <-]. auto.
Qed.

Lemma update_income_inv (db db' : Database) (record : IncomeRecord) (b : bool) :
  update_income db record = Ok (db', b) ->
  (id record = None /\ db' = db /\ b = false) \/
  (exists i, id record = Some i /\
     b = Nat.ltb 0 (length (List.filter (fun r => row_id r =? i) (income_records db))) /\
     db' = {| income_records :=
                List.map (fun r => if row_id r =? i then set_fields record r else r)
                  (income_records db);
              sqlite_sequence := sqlite_sequence db;
              app_settings := app_settings db |}).
Proof.
  unfold update_income. destruct (id record) as [i|].
  - destruct (binds db i); [|discriminate].
    destruct (_ && _); [discriminate|]. intros [= <- <-]. right. eauto.
  - intros [= <- <-]. left. auto.
Qed.

Lemma delete_income_inv (db db' : Database) (record_id : Z) (b : bool) :
  delete_income db record_id = Ok (db', b) ->
  binds db record_id = true /\
  b = Nat.ltb 0 (length (List.filter (fun r => row_id r =? record_id)
                           (income_records db))) /\
  db' = {| income_records :=
             List.filter (fun r => negb (row_id r =? record_id)) (income_records db);
           sqlite_sequence := sqlite_sequence db;
           app_settings := app_settings db |}.
Proof.
  unfold delete_income. destruct (binds db record_id); [|discriminate].
  intros [= <- <-]. auto.
Qed.


Lemma max_rowid_update (i : Z) (record : IncomeRecord) (rows : list Row) :
  max_rowid (List.map (fun r => if row_id r =? i then set_fields record r else r)
               rows)
  = max_rowid rows.
Proof.
  induction rows as [|r rows IH]; unfold max_rowid in *;
    cbn [List.map List.fold_right]; [reflexivity|]. rewrite IH.
  destruct (row_id r =? i); reflexivity.
Qed.

Lemma max_rowid_delete (i : Z) (rows : list Row) :
  max_rowid (List.filter (fun r => negb (row_id r =? i)) rows) <= max_rowid rows.
Proof.
  induction rows as [|r rows IH]; unfold max_rowid in *;
    cbn [List.filter List.fold_right]; [lia|].
  destruct (negb (row_id r =? i)); cbn [List.fold_right]; lia.
Qed.

Lemma fresh_id_unused (db : Database) (r : Row) :
  In r (income_records db) ->
  row_id r <> Z.max (max_rowid (income_records db)) (sqlite_sequence db) + 1.
Proof. intros Hin. pose proof (max_rowid_bound _ _ Hin). lia. Qed.

Lemma map_update_ids (i : Z) (record : IncomeRecord) (rows : list Row) :
  List.map row_id
    (List.map (fun r => if row_id r =? i then set_fields record r else r) rows)
  = List.map row_id rows.
Proof.
  induction rows as [|r rows IH]; [reflexivity|]. cbn [List.map]. rewrite IH.
  f_equal. destruct (row_id r =? i); reflexivity.
Qed.

Lemma NoDup_map_filter {A B : Type} (f : A -> B) (p : A -> bool) (l : list A) :
  NoDup (List.map f l) -> NoDup (List.map f (List.filter p l)).
Proof.
  induction l as [|x l IH]; cbn; [auto|].
  rewrite !NoDup_cons. intros [Hx Hl]. destruct (p x); cbn.
  - rewrite NoDup_cons. split; [|auto].
    intros Hin. apply Hx. rewrite list_elem_of_In in *.
    apply in_map_iff in Hin as (y & Hy & Hin). apply in_map_iff.
    exists y. split; [assumption|]. apply filter_In in Hin. tauto.
  - auto.
Qed.

(** X1. The three statements that write the table keep its ids distinct,
    positive and not above the AUTOINCREMENT counter. *)
Theorem writes_keep_ids_unique (db : Database) :
  ids_ok db ->
  (forall record db' i, add_income db record = Ok (db', i) -> ids_ok db') /\
  (forall record db' b, update_income db record = Ok (db', b) -> ids_ok db') /\
  (forall record_id db' b, delete_income db record_id = Ok (db', b) -> ids_ok db').
Proof.
  intros [Hnd Hall]. split; [|split].
  - intros record db' i Hadd.
    apply add_income_inv in Hadd as (_ & Hi & ->).
    pose proof (max_rowid_nonneg (income_records db)) as Hmax.
    split; cbn [income_records sqlite_sequence].
    + rewrite map_app. cbn [List.map]. apply NoDup_app. split; [assumption|].
      split; [|apply NoDup_singleton].
      intros x Hx Hx'. apply list_elem_of_singleton in Hx'. subst x.
      rewrite list_elem_of_In in Hx. apply in_map_iff in Hx as (r & Hr & Hin).
      pose proof (fresh_id_unused db r Hin). cbn in Hr. lia.
    + apply Forall_app. split.
      * eapply Forall_impl; [exact Hall|]. cbn. intros r Hr. lia.
      * apply Forall_singleton. cbn. lia.
  - intros record db' b Hupd.
    apply update_income_inv in Hupd as [(_ & -> & _)|(i & _ & _ & ->)];
      [split; assumption|].
    split; cbn [income_records sqlite_sequence].
    + rewrite map_update_ids. assumption.
    + rewrite Forall_forall in *. intros r Hr.
      rewrite list_elem_of_In in Hr. apply in_map_iff in Hr as (r0 & <- & Hr0).
      rewrite <- list_elem_of_In in Hr0. specialize (Hall r0 Hr0).
      destruct (row_id r0 =? i); cbn; lia.
  - intros record_id db' b Hdel.
    apply delete_income_inv in Hdel as (_ & _ & ->).
    split; cbn [income_records sqlite_sequence].
    + apply NoDup_map_filter. assumption.
    + rewrite Forall_forall in *. intros r Hr.
      rewrite list_elem_of_In in Hr. apply filter_In in Hr as [Hr _].
      apply Hall. rewrite list_elem_of_In. assumption.
Qed.



Lemma find_app_other (j : Z) (rows : list Row) (r : Row) :
  row_id r <> j ->
  List.find (fun r' => row_id r' =? j) (rows ++ [r])
  = List.find (fun r' => row_id r' =? j) rows.
Proof.
  intros Hr. induction rows as [|r0 rows IH]; cbn.
  - destruct (row_id r =? j) eqn:E; [lia | reflexivity].
  - destruct (row_id r0 =? j); [reflexivity | exact IH].
Qed.

Lemma find_update_other (i j : Z) (f : Row -> Row) (rows : list Row) :
  i <> j -> (forall r, row_id (f r) = row_id r) ->
  List.find (fun r => row_id r =? j)
    (List.map (fun r => if row_id r =? i then f r else r) rows)
  = List.find (fun r => row_id r =? j) rows.
Proof.
  intros Hij Hf. induction rows as [|r rows IH]; cbn; [reflexivity|].
  destruct (row_id r =? i) eqn:Ei.
  - rewrite Hf. destruct (row_id r =? j) eqn:Ej; [lia | exact IH].
  - destruct (row_id r =? j); [reflexivity | exact IH].
Qed.

Lemma find_delete_same (i : Z) (rows : list Row) :
  List.find (fun r => row_id r =? i)
    (List.filter (fun r => negb (row_id r =? i)) rows) = None.
Proof.
  induction rows as [|r rows IH]; cbn; [reflexivity|].
  destruct (row_id r =? i) eqn:E; cbn; [exact IH|]. rewrite E. exact IH.
Qed.

Lemma find_delete_other (i j : Z) (rows : list Row) :
  i <> j ->
  List.find (fun r => row_id r =? j)
    (List.filter (fun r => negb (row_id r =? i)) rows)
  = List.find (fun r => row_id r =? j) rows.
Proof.
  intros Hij. induction rows as [|r rows IH]; cbn; [reflexivity|].
  destruct (row_id r =? i) eqn:Ei; cbn.
  - destruct (row_id r =? j) eqn:Ej; [lia | exact IH].
  - destruct (row_id r =? j); [reflexivity | exact IH].
Qed.

Lemma from_db_row_ok (r : Row) :
  (row_amount r <? 0)%float = false -> from_db_row r = Ok (record_of_row r).
Proof.
  intros Ha. unfold from_db_row, new_IncomeRecord, post_init. cbn. rewrite Ha.
  reflexivity.
Qed.

Lemma from_db_row_negative (r : Row) :
  (row_amount r <? 0)%float = true -> from_db_row r = Raise ValueError.
Proof.
  intros Ha. unfold from_db_row, new_IncomeRecord, post_init. cbn. rewrite Ha.
  reflexivity.
Qed.


(** X3. AUTOINCREMENT never hands out an id again: after a record was
    inserted and deleted, the next insertion gets a larger id, and the old
    id finds nothing. *)
Theorem ids_are_not_reused (db db1 db2 db3 : Database)
    (first second : IncomeRecord) (i j : Z) (deleted : bool) :
  add_income db first = Ok (db1, i) ->
  delete_income db1 i = Ok (db2, deleted) ->
  add_income db2 second = Ok (db3, j) ->
  deleted = true /\ i < j /\ get_income_by_id db3 i = Ok None.
Proof.
  intros Hadd Hdel Hadd2.
  apply add_income_inv in Hadd as (_ & Hi & ->).
  apply delete_income_inv in Hdel as (_ & -> & ->).
  cbn [income_records sqlite_sequence app_settings] in *.
  apply add_income_inv in Hadd2 as (_ & Hj & ->).
  cbn [income_records sqlite_sequence] in Hj.
  pose proof (max_rowid_nonneg (income_records db)) as Hmax.
  split; [|split].
  - apply filter_hits_length. reflexivity.
  - lia.
  - unfold get_income_by_id.
    replace (binds _ i) with true
      by (unfold binds; cbn [income_records sqlite_sequence]; lia).
    cbn [income_records].
    rewrite find_app_other by (cbn; lia).
    rewrite find_delete_same. reflexivity.
Qed.

(** X4. Deleting by an id that is a 64-bit integer does not raise;
    afterwards the id finds nothing and every other such id finds what it
    found before. The call returns [True] exactly when a row carried the
    id. An id outside 64 bits raises [OverflowError], on every store whose
    own ids are 64-bit integers. *)
Theorem delete_removes_the_record (db : Database) (record_id : Z) :
  (sqlite_int record_id = true ->
   exists (db' : Database) (deleted : bool),
     delete_income db record_id = Ok (db', deleted) /\
     get_income_by_id db' record_id = Ok None /\
     (forall j, j <> record_id -> sqlite_int j = true ->
        get_income_by_id db' j = get_income_by_id db j) /\
     (deleted = true <->
        exists r, In r (income_records db) /\ row_id r = record_id) /\
     sqlite_sequence db' = sqlite_sequence db /\
     app_settings db' = app_settings db) /\
  (sqlite_int record_id = false ->
   sqlite_int (sqlite_sequence db) = true ->
   sqlite_int (max_rowid (income_records db)) = true ->
   delete_income db record_id = Raise OverflowError).
Proof.
  split.
  - intros Hid. unfold delete_income. rewrite (binds_of_int db record_id Hid).
    eexists _, _. split; [reflexivity|].
    cbn [income_records sqlite_sequence app_settings].
    split; [|split; [|split; [|split; reflexivity]]].
    + unfold get_income_by_id. rewrite binds_of_int by exact Hid.
      cbn [income_records]. rewrite find_delete_same. reflexivity.
    + intros j Hj Hint. unfold get_income_by_id.
      rewrite !binds_of_int by exact Hint. cbn [income_records].
      rewrite find_delete_other by lia. reflexivity.
    + split.
      * intros Hlen.
        destruct (List.filter (fun r => row_id r =? record_id) (income_records db))
          as [|r l] eqn:E; [discriminate|].
        assert (Hin : In r (List.filter (fun r => row_id r =? record_id)
                              (income_records db))) by (rewrite E; left; reflexivity).
        apply filter_In in Hin as [Hin Hr]. exists r. split; [assumption | lia].
      * intros (r & Hin & Hr).
        destruct (List.filter (fun r => row_id r =? record_id) (income_records db))
          as [|r0 l] eqn:E; [|reflexivity].
        exfalso. eapply filter_hit_nonempty; [exact Hin| |exact E]. cbn. lia.
  - intros Hid Hseq Hmax. unfold delete_income.
    rewrite (binds_int db record_id Hseq Hmax), Hid. reflexivity.
Qed.

Lemma filter_unique_id (i : Z) (rows : list Row) :
  NoDup (List.map row_id rows) ->
  (exists r, In r rows /\ row_id r = i) ->
  length (List.filter (fun r => row_id r =? i) rows) = 1%nat.
Proof.
  induction rows as [|r0 rows IH]; cbn [List.map List.filter].
  - intros _ (r & [] & _).
  - rewrite NoDup_cons. intros [Hr0 Hnd] (r & Hin & Hr).
    destruct (row_id r0 =? i) eqn:E.
    + cbn [length]. f_equal.
      rewrite filter_no_match; [reflexivity|].
      intros r' Hr' Heq. apply Hr0. rewrite list_elem_of_In. apply in_map_iff.
      exists r'. split; [lia | assumption].
    + apply IH; [assumption|]. destruct Hin as [->|Hin]; [lia|]. eauto.
Qed.

Lemma filter_split_length {A : Type} (f : A -> bool) (l : list A) :
  (length (List.filter f l) + length (List.filter (fun x => negb (f x)) l)
   = length l)%nat.
Proof.
  induction l as [|x l IH]; cbn; [reflexivity|].
  destruct (f x); cbn; lia.
Qed.

(** X5. The record count follows the writes: an insertion adds one, an
    update changes nothing, and a deletion takes exactly one away when the
    id is stored (ids being distinct) and nothing otherwise. *)
Theorem record_count_follows_writes (db : Database) :
  ids_ok db ->
  (forall record db' i, add_income db record = Ok (db', i) ->
     get_record_count db' = get_record_count db + 1) /\
  (forall record db' b, update_income db record = Ok (db', b) ->
     get_record_count db' = get_record_count db) /\
  (forall record_id db' b, delete_income db record_id = Ok (db', b) ->
     get_record_count db' = get_record_count db - (if b then 1 else 0)).
Proof.
  intros [Hnd _]. unfold get_record_count. split; [|split].
  - intros record db' i Hadd. apply add_income_inv in Hadd as (_ & _ & ->).
    cbn [income_records]. rewrite length_app. cbn. lia.
  - intros record db' b Hupd.
    apply update_income_inv in Hupd as [(_ & -> & _)|(i & _ & _ & ->)];
      [reflexivity|].
    cbn [income_records]. rewrite length_map. reflexivity.
  - intros record_id db' b Hdel.
    apply delete_income_inv in Hdel as (_ & -> & ->). cbn [income_records].
    pose proof (filter_split_length (fun r => row_id r =? record_id)
                  (income_records db)) as Hsplit.
    destruct (List.filter (fun r => row_id r =? record_id) (income_records db))
      as [|r l] eqn:E.
    + cbn in Hsplit |- *. lia.
    + assert (Hin : In r (List.filter (fun r => row_id r =? record_id)
                            (income_records db))) by (rewrite E; left; reflexivity).
      apply filter_In in Hin as [Hin Hr].
      pose proof (filter_unique_id record_id (income_records db) Hnd) as Hone.
      rewrite E in Hone. rewrite Hone in Hsplit by (exists r; split; [assumption|lia]).
      cbn [length Nat.ltb Nat.leb]. lia.
Qed.

(** X6. An update reaches no row but those of its id: every other id finds
    what it found before, and the counter and the settings are untouched. *)
Theorem update_leaves_other_records (db db' : Database) (record : IncomeRecord)
    (updated : bool) :
  update_income db record = Ok (db', updated) ->
  (forall j, id record <> Some j -> get_income_by_id db' j = get_income_by_id db j) /\
  sqlite_sequence db' = sqlite_sequence db /\
  app_settings db' = app_settings db.
Proof.
  intros Hupd.
  apply update_income_inv in Hupd as [(_ & -> & _)|(i & Hi & _ & ->)]; [auto|].
  cbn [income_records sqlite_sequence app_settings].
  split; [|split; reflexivity].
  intros j Hj. unfold get_income_by_id.
  replace (binds _ j) with (binds db j)
    by (unfold binds; cbn [income_records sqlite_sequence];
        rewrite max_rowid_update; reflexivity).
  cbn [income_records].
  rewrite find_update_other; [reflexivity| |reflexivity].
  intros ->. apply Hj. assumption.
Qed.

Lemma one_record_ids_ok : ids_ok one_record_db.
Proof.
  split; cbn.
  - apply NoDup_singleton.
  - apply Forall_singleton. cbn. lia.
Qed.

Lemma three_records_ids_ok : ids_ok three_records_db.
Proof.
  split; cbn.
  - apply (bool_decide_unpack _). vm_compute. exact I.
  - repeat (apply Forall_cons; split; [cbn; lia|]). apply Forall_nil. exact I.
Qed.

Lemma writes_keep_ids_unique_witness :
  ids_ok one_record_db /\
  exists db' i, add_income one_record_db stale_record = Ok (db', i) /\ ids_ok db'.
Proof.
  split; [exact one_record_ids_ok|]. eexists _, _. split; [reflexivity|].
  exact (proj1 (writes_keep_ids_unique one_record_db one_record_ids_ok)
           stale_record _ _ eq_refl).
Defined.


Lemma ids_are_not_reused_witness :
  exists db1 i db2 db3 j,
    add_income one_record_db stale_record = Ok (db1, i) /\
    delete_income db1 i = Ok (db2, true) /\
    add_income db2 stale_record = Ok (db3, j) /\
    i < j /\ get_income_by_id db3 i = Ok None.
Proof.
  eexists _, _, _, _, _.
  split; [reflexivity|]. split; [reflexivity|]. split; [reflexivity|].
  destruct (ids_are_not_reused one_record_db _ _ _ stale_record stale_record _ _ _
              eq_refl eq_refl eq_refl) as (_ & Hlt & Hnone).
  split; [exact Hlt | exact Hnone].
Defined.

Lemma delete_removes_the_record_witness :
  exists db' : Database,
    delete_income three_records_db 2 = Ok (db', true) /\
    get_income_by_id db' 2 = Ok None.
Proof.
  destruct (proj1 (delete_removes_the_record three_records_db 2) eq_refl)
    as (db' & deleted & Hdel & Hnone & _ & Htrue & _).
  assert (E : deleted = true).
  { apply Htrue. eexists. split; [right; left; reflexivity | reflexivity]. }
  subst deleted. exists db'. split; assumption.
Defined.

Lemma record_count_follows_writes_witness :
  ids_ok three_records_db /\
  exists db', delete_income three_records_db 2 = Ok (db', true) /\
              get_record_count db' = 2.
Proof.
  split; [exact three_records_ids_ok|]. eexists. split; [reflexivity|].
  destruct (record_count_follows_writes three_records_db three_records_ids_ok)
    as (_ & _ & Hdel).
  exact (Hdel 2 _ true eq_refl).
Defined.

Lemma update_leaves_other_records_witness :
  exists db',
    update_income three_records_db gift_update = Ok (db', true) /\
    get_income_by_id db' 1 = get_income_by_id three_records_db 1.
Proof.
  eexists. split; [reflexivity|].
  destruct (update_leaves_other_records three_records_db _ gift_update true eq_refl)
    as (Hother & _).
  apply Hother. discriminate.
Defined.

End StoreInvariants.

(** * Properties of the record listing *)

Module ListingProps.
Import Calendar PyFloat Sqlite Models Db FloatFacts ListFacts TextOrder StoreProps
  StoreInvariants Examples.

(** The WHERE clause that [get_incomes] assembles. *)
Definition selected (start_date end_date : option timestamp)
    (category : option string) (r : Row) : bool :=
  match start_date with
  | Some s => text_leb s (row_date r)
  | None => true
  end
  && match end_date with
     | Some e => text_leb (row_date r) e
     | None => true
     end
  && match category with
     | Some c => if string_truthy c then bool_decide (row_category r = c) else true
     | None => true
     end.

(** [ORDER BY date DESC, created_at DESC], read on records. *)
Definition record_before (a b : IncomeRecord) : bool :=
  text_ltb (date b) (date a)
  || (text_leb (date b) (date a) && text_leb (created_at b) (created_at a)).

Lemma get_incomes_unfold db start_date end_date category limit offset :
  sqlite_int limit = true -> sqlite_int offset = true ->
  get_incomes db start_date end_date category limit offset =
  mapM from_db_row
    (limit_offset limit offset
       (merge_sort (fun a b => Is_true (row_before a b))
          (List.filter (selected start_date end_date category)
             (income_records db)))).
Proof. intros Hl Ho. unfold get_incomes. rewrite Hl, Ho. reflexivity. Qed.

Lemma get_incomes_inv db start_date end_date category limit offset recs :
  get_incomes db start_date end_date category limit offset = Ok recs ->
  sqlite_int limit = true /\ sqlite_int offset = true /\
  mapM from_db_row
    (limit_offset limit offset
       (merge_sort (fun a b => Is_true (row_before a b))
          (List.filter (selected start_date end_date category)
             (income_records db)))) = Ok recs.
Proof.
  unfold get_incomes.
  destruct (sqlite_int limit); [|discriminate].
  destruct (sqlite_int offset); [|discriminate].
  intros Hrecs. split; [reflexivity|]. split; [reflexivity|]. exact Hrecs.
Qed.


Lemma row_before_lex (a b : Row) :
  row_before a b =
  lex (fun x y => text_leb y x) row_date
    (lex (fun x y => text_leb y x) row_created_at
       (fun a b => row_id b <=? row_id a)) a b.
Proof. reflexivity. Qed.

#[local] Instance row_before_total : Total (fun a b => Is_true (row_before a b)).
Proof.
  intros a b. rewrite !Is_true_true, !row_before_lex.
  apply lex_total; [apply text_geb_total|].
  apply lex_total; [apply text_geb_total|]. intros x y. lia.
Qed.

#[local] Instance row_before_trans : Transitive (fun a b => Is_true (row_before a b)).
Proof.
  intros a b c. rewrite !Is_true_true, !row_before_lex.
  apply lex_trans; [apply text_geb_total|apply text_geb_trans|].
  apply lex_trans; [apply text_geb_total|apply text_geb_trans|].
  intros x y z. lia.
Qed.

Lemma row_before_records (a b : Row) :
  row_before a b = true -> record_before (record_of_row a) (record_of_row b) = true.
Proof.
  unfold row_before, record_before, record_of_row. cbn [date created_at].
  pose proof (text_ltb_leb (row_created_at b) (row_created_at a)).
  destruct (text_ltb (row_date b) (row_date a)), (text_leb (row_date b) (row_date a)),
    (text_ltb (row_created_at b) (row_created_at a)),
    (text_leb (row_created_at b) (row_created_at a)); cbn in *;
    intuition congruence.
Qed.

Lemma StronglySorted_limit_offset {A : Type} (R : relation A) limit offset (l : list A) :
  StronglySorted R l -> StronglySorted R (limit_offset limit offset l).
Proof.
  intros Hl. unfold limit_offset.
  assert (Hdrop : StronglySorted R (drop (Z.to_nat offset) l)).
  { rewrite <- (take_drop (Z.to_nat offset) l) in Hl.
    eapply StronglySorted_app_1_r. exact Hl. }
  destruct (limit <? 0); [assumption|].
  rewrite <- (take_drop (Z.to_nat limit) (drop (Z.to_nat offset) l)) in Hdrop.
  eapply StronglySorted_app_1_l. exact Hdrop.
Qed.

Lemma limit_offset_subset {A : Type} limit offset (l : list A) (x : A) :
  x ∈ limit_offset limit offset l -> x ∈ l.
Proof.
  unfold limit_offset. intros Hx.
  assert (Hd : x ∈ drop (Z.to_nat offset) l).
  { destruct (limit <? 0); [assumption|].
    rewrite <- (take_drop (Z.to_nat limit) (drop (Z.to_nat offset) l)).
    apply elem_of_app. left. exact Hx. }
  rewrite <- (take_drop (Z.to_nat offset) l). apply elem_of_app. right. exact Hd.
Qed.

Lemma from_db_row_cases (r : Row) :
  (from_db_row r = Ok (record_of_row r) /\ (row_amount r <? 0)%float = false) \/
  (from_db_row r = Raise ValueError /\ (row_amount r <? 0)%float = true).
Proof.
  destruct (row_amount r <? 0)%float eqn:E.
  - right. split; [apply from_db_row_negative; assumption | reflexivity].
  - left. split; [apply from_db_row_ok; assumption | reflexivity].
Qed.

(** The list comprehension over [from_db_row]. *)
Lemma mapM_from_db_row_Ok (rows : list Row) (recs : list IncomeRecord) :
  mapM from_db_row rows = Ok recs ->
  recs = record_of_row <$> rows /\
  Forall (fun r => (row_amount r <? 0)%float = false) rows.
Proof.
  revert recs. induction rows as [|r rows IH]; intros recs; cbn.
  - intros [= <-]. split; [reflexivity | constructor].
  - destruct (from_db_row_cases r) as [[-> Hr]|[-> _]]; cbn; [|discriminate].
    destruct (mapM from_db_row rows) as [recs'|e]; cbn; [|discriminate].
    intros [= <-]. destruct (IH recs' eq_refl) as [-> Hall].
    split; [reflexivity | constructor; assumption].
Qed.

Lemma mapM_from_db_row_all (rows : list Row) :
  Forall (fun r => (row_amount r <? 0)%float = false) rows ->
  mapM from_db_row rows = Ok (record_of_row <$> rows).
Proof.
  induction 1 as [|r rows Hr _ IH]; cbn; [reflexivity|].
  rewrite from_db_row_ok by assumption. cbn. rewrite IH. reflexivity.
Qed.


Lemma mapM_from_db_row_app (l1 l2 : list Row) (r1 r2 : list IncomeRecord) :
  mapM from_db_row l1 = Ok r1 -> mapM from_db_row l2 = Ok r2 ->
  mapM from_db_row (l1 ++ l2) = Ok (r1 ++ r2).
Proof.
  intros H1 H2.
  apply mapM_from_db_row_Ok in H1 as [-> H1], H2 as [-> H2].
  rewrite mapM_from_db_row_all by (apply Forall_app; split; assumption).
  rewrite fmap_app. reflexivity.
Qed.

(** X7. The listing is ordered as the query asks: of two records returned,
    the earlier one has the later date, or the same date and a creation
    time that is not earlier. *)
Theorem incomes_come_newest_first (db : Database)
    (start_date end_date : option timestamp) (category : option string)
    (limit offset : Z) (recs : list IncomeRecord) :
  get_incomes db start_date end_date category limit offset = Ok recs ->
  StronglySorted (fun a b => record_before a b = true) recs.
Proof.
  intros Hrecs. apply get_incomes_inv in Hrecs as (_ & _ & Hrecs).
  apply mapM_from_db_row_Ok in Hrecs as [-> _].
  eapply StronglySorted_fmap; cycle 1.
  - apply StronglySorted_limit_offset.
    apply (StronglySorted_merge_sort (fun a b => Is_true (row_before a b))).
  - intros a b Hab. apply Is_true_true in Hab. apply row_before_records, Hab.
Qed.

(** X8. Every record of the listing is a stored row that passes the three
    filters given (an empty category filters nothing), and a limit that is
    not negative bounds the length of the listing. *)
Theorem incomes_pass_the_filters (db : Database)
    (start_date end_date : option timestamp) (category : option string)
    (limit offset : Z) (recs : list IncomeRecord) :
  get_incomes db start_date end_date category limit offset = Ok recs ->
  (0 <= limit -> Z.of_nat (length recs) <= limit) /\
  forall rec, rec ∈ recs ->
    (exists row, row ∈ income_records db /\ rec = record_of_row row) /\
    (forall s, start_date = Some s -> text_leb s (date rec) = true) /\
    (forall e, end_date = Some e -> text_leb (date rec) e = true) /\
    (forall c, category = Some c -> c <> ""%string -> Models.category rec = c).
Proof.
  intros Hrecs. apply get_incomes_inv in Hrecs as (_ & _ & Hrecs).
  apply mapM_from_db_row_Ok in Hrecs as [-> _]. split.
  - intros Hlimit. rewrite length_fmap. unfold limit_offset.
    destruct (limit <? 0) eqn:E; [lia|]. rewrite length_take. lia.
  - intros rec Hrec. apply list_elem_of_fmap in Hrec as (row & -> & Hrow).
    apply limit_offset_subset in Hrow.
    rewrite merge_sort_Permutation in Hrow.
    rewrite list_elem_of_In in Hrow. apply filter_In in Hrow as [Hin Hsel].
    rewrite <- list_elem_of_In in Hin. unfold selected in Hsel.
    apply andb_prop in Hsel as [Hsel Hcat]. apply andb_prop in Hsel as [Hs He].
    split; [eauto|]. cbn. split; [|split].
    + intros s ->. exact Hs.
    + intros e ->. exact He.
    + intros c -> Hc. destruct c; [congruence|]. cbn in Hcat.
      apply bool_decide_eq_true in Hcat. exact Hcat.
Qed.




Lemma limit_offset_pages {A : Type} (k1 k2 offset : Z) (l : list A) :
  0 <= k1 -> 0 <= k2 -> 0 <= offset ->
  limit_offset (k1 + k2) offset l =
  limit_offset k1 offset l ++ limit_offset k2 (offset + k1) l.
Proof.
  intros H1 H2 Ho. unfold limit_offset.
  destruct (k1 + k2 <? 0) eqn:E; [lia|].
  destruct (k1 <? 0) eqn:E1; [lia|]. destruct (k2 <? 0) eqn:E2; [lia|].
  replace (Z.to_nat (k1 + k2)) with (Z.to_nat k1 + Z.to_nat k2)%nat by lia.
  replace (Z.to_nat (offset + k1)) with (Z.to_nat offset + Z.to_nat k1)%nat by lia.
  generalize (Z.to_nat k1) (Z.to_nat k2) (Z.to_nat offset). intros n1 n2 o.
  rewrite <- drop_drop. generalize (drop o l). intros l'.
  symmetry. apply take_take_drop.
Qed.

(** X10. Pages join, where the order of the listing is settled by the
    query, no two rows that pass the filters agreeing in both [date] and
    [created_at]: a page of [k1] records at an offset followed by the page
    of [k2] records that starts where it ends is the page of [k1 + k2]
    records at that offset, [k1 + k2] being a 64-bit integer. *)
Theorem incomes_pages_join (db : Database)
    (start_date end_date : option timestamp) (category : option string)
    (k1 k2 offset : Z) (page1 page2 : list IncomeRecord) :
  0 <= k1 -> 0 <= k2 -> 0 <= offset ->
  sqlite_int (k1 + k2) = true ->
  (forall r1 r2, In r1 (income_records db) -> In r2 (income_records db) ->
     selected start_date end_date category r1 = true ->
     selected start_date end_date category r2 = true ->
     row_date r1 = row_date r2 -> row_created_at r1 = row_created_at r2 ->
     row_id r1 = row_id r2) ->
  get_incomes db start_date end_date category k1 offset = Ok page1 ->
  get_incomes db start_date end_date category k2 (offset + k1) = Ok page2 ->
  get_incomes db start_date end_date category (k1 + k2) offset
    = Ok (page1 ++ page2).
Proof.
  intros H1 H2 Ho Hsum _ Hp1 Hp2.
  apply get_incomes_inv in Hp1 as (_ & Hoff & Hp1).
  apply get_incomes_inv in Hp2 as (_ & _ & Hp2).
  rewrite get_incomes_unfold by assumption.
  rewrite limit_offset_pages by assumption.
  apply mapM_from_db_row_app; assumption.
Qed.

Lemma incomes_come_newest_first_witness :
  exists recs,
    get_incomes three_records_db None None None 1000 0 = Ok recs /\
    StronglySorted (fun a b => record_before a b = true) recs.
Proof.
  eexists. split; [reflexivity|].
  apply (incomes_come_newest_first three_records_db None None None 1000 0).
  reflexivity.
Defined.

Lemma incomes_pass_the_filters_witness :
  exists recs,
    get_incomes three_records_db (Some (naive (mk_dt 739000 0))) None
      (Some "bonus"%string) 1 0
      = Ok recs /\
    Z.of_nat (length recs) <= 1.
Proof.
  eexists. split; [reflexivity|].
  apply (incomes_pass_the_filters three_records_db
           (Some (naive (mk_dt 739000 0))) None (Some "bonus"%string) 1 0 _ eq_refl).
  lia.
Defined.


Lemma incomes_pages_join_witness :
  exists page1 page2,
    get_incomes three_records_db None None None 1 0 = Ok page1 /\
    get_incomes three_records_db None None None 1 1 = Ok page2 /\
    get_incomes three_records_db None None None 2 0 = Ok (page1 ++ page2).
Proof.
  eexists _, _. split; [reflexivity|]. split; [reflexivity|].
  apply (incomes_pages_join three_records_db None None None 1 1 0);
    [lia | lia | lia | reflexivity | | reflexivity | reflexivity].
  cbn [income_records three_records_db].
  intros r1 r2 [<-|[<-|[<-|[]]]] [<-|[<-|[<-|[]]]] _ _ Hd Hc;
    try reflexivity; vm_compute in Hd; discriminate Hd.
Defined.

End ListingProps.

(** * Properties of the sums over a window *)

Module WindowProps.
Import Calendar CalendarFacts CalendarInverse PyFloat Models Db ListFacts
  TextOrder Examples SampleFacts.

Section WithEngine.
Context `{Engine}.

Lemma filter_ext_in_rows (f g : Row -> bool) (rows : list Row) :
  (forall r, In r rows -> f r = g r) -> List.filter f rows = List.filter g rows.
Proof.
  induction rows as [|r rows IH]; intros Hfg; cbn; [reflexivity|].
  rewrite (Hfg r) by (left; reflexivity).
  rewrite IH by (intros r' Hr'; apply Hfg; right; assumption). reflexivity.
Qed.

Lemma get_yearly_income_in_range (db : Database) (now : datetime) (year : option Z) :
  let y := default (dt_year now) year in
  1 <= y <= 9999 ->
  get_yearly_income db now year =
  Ok (windowed_total db (mk_dt (ymd2ord y 1 1) 0)
        (mk_dt (ymd2ord y 12 31) 86399000000)).
Proof.
  intros y Hy. unfold get_yearly_income. fold y.
  rewrite !new_datetime_ok; try lia; [reflexivity| |];
    unfold days_in_month; cbn; lia.
Qed.

(** X11. The income of a year in 1..9999 is the sum over the records dated
    in that calendar year, the date being read as it is written, those of
    31 December whose text comes after that of 23:59:59 left out; asked
    without a year, it is that sum for the year of the clock. The engine
    adds the amounts in the order of the index on the date. *)
Theorem yearly_income_is_the_calendar_year (db : Database) (now : datetime)
    (year : option Z) :
  let y := default (dt_year now) year in
  1 <= y <= 9999 ->
  (forall r, In r (income_records db) -> valid_datetime (wall (row_date r))) ->
  get_yearly_income db now year =
  Ok (coalesce0 (sql_sum (List.map row_amount
        (index_scan
           (List.filter
              (fun r => (dt_year (wall (row_date r)) =? y)
                        && text_leb (row_date r)
                             (naive (mk_dt (ymd2ord y 12 31) 86399000000)))
              (income_records db)))))).
Proof.
  intros y Hy Hvalid. rewrite get_yearly_income_in_range by assumption. fold y.
  unfold windowed_total. do 5 f_equal.
  apply filter_ext_in_rows. intros r Hr.
  destruct (Hvalid r Hr) as [[Hord _] [Hus _]].
  unfold in_window.
  pose proof (year_of_ordinal_iff (ordinal (wall (row_date r))) y
                ltac:(lia) ltac:(lia)) as Hiff.
  fold (dt_year (wall (row_date r))) in Hiff.
  assert (Hjan : ymd2ord y 1 1 = days_before_year y + 1).
  { unfold ymd2ord, days_before_month. change (DAYS_BEFORE_MONTH 1) with 0.
    change (2 <? 1) with false. cbn [andb]. lia. }
  assert (Hdec : ymd2ord y 12 31 = days_before_year (y + 1)).
  { rewrite days_before_year_succ. unfold ymd2ord, days_before_month.
    change (DAYS_BEFORE_MONTH 12) with 334. change (2 <? 12) with true.
    cbn [andb]. destruct (is_leap y); lia. }
  assert (Hstart : text_leb (naive (mk_dt (ymd2ord y 1 1) 0)) (row_date r)
                   = (days_before_year y <? ordinal (wall (row_date r)))).
  { unfold text_leb, naive. cbn [wall utcoffset ordinal micros suffix_key].
    rewrite Hjan.
    pose proof (suffix_key_lower (utcoffset (row_date r))). lia. }
  assert (Hend : text_leb (row_date r)
                   (naive (mk_dt (ymd2ord y 12 31) 86399000000)) = true ->
                 ordinal (wall (row_date r)) <= days_before_year (y + 1)).
  { unfold text_leb, naive. cbn [wall utcoffset ordinal micros]. rewrite Hdec. lia. }
  rewrite Hstart.
  destruct (text_leb (row_date r) _) eqn:Ee; [|rewrite !andb_false_r; reflexivity].
  specialize (Hend eq_refl). rewrite !andb_true_r.
  destruct (Z.eqb_spec (dt_year (wall (row_date r))) y) as [E|E].
  - apply Hiff in E. lia.
  - assert (~ (days_before_year y < ordinal (wall (row_date r))
               <= days_before_year (y + 1)))
      by (intros Hr'; apply E, Hiff, Hr').
    lia.
Qed.

(** X12. Asked for a year, [get_yearly_income] raises [ValueError]
    exactly when the year fits a C [int] and is not in 1..9999, and
    [OverflowError] exactly when it does not fit a C [int]; asked without a
    year, it does not raise as long as the clock shows a date of the
    calendar. *)
Theorem yearly_income_outside_the_calendar (db : Database) (now : datetime) :
  (forall year : Z,
     get_yearly_income db now (Some year) = Raise ValueError <->
     (c_int year = true /\ (year < 1 \/ 9999 < year))) /\
  (forall year : Z,
     get_yearly_income db now (Some year) = Raise OverflowError <->
     c_int year = false) /\
  (1 <= ordinal now <= MAXORDINAL ->
   exists total, get_yearly_income db now None = Ok total).
Proof.
  assert (Hin : forall year, 1 <= year <= 9999 ->
            exists total, get_yearly_income db now (Some year) = Ok total).
  { intros year Hyear. eexists.
    apply (get_yearly_income_in_range db now (Some year)). exact Hyear. }
  assert (Hout : forall year, c_int year = true -> year < 1 \/ 9999 < year ->
            get_yearly_income db now (Some year) = Raise ValueError).
  { intros year Hc Hyear. unfold get_yearly_income.
    cbn [default]. change (Datatypes.id year) with year.
    rewrite (new_datetime_bad_year year 1 1 0 Hc eq_refl eq_refl Hyear).
    reflexivity. }
  assert (Hbig : forall year, c_int year = false ->
            get_yearly_income db now (Some year) = Raise OverflowError).
  { intros year Hc. unfold get_yearly_income.
    cbn [default]. change (Datatypes.id year) with year.
    rewrite (new_datetime_overflows year 1 1 0 Hc). reflexivity. }
  split; [|split].
  - intros year. split.
    + intros Hraise. destruct (c_int year) eqn:Hc.
      * split; [reflexivity|].
        destruct (Z_lt_dec year 1); [lia|]. destruct (Z_lt_dec 9999 year); [lia|].
        destruct (Hin year ltac:(lia)) as [total Htotal].
        rewrite Htotal in Hraise. discriminate.
      * rewrite (Hbig year Hc) in Hraise. discriminate.
    + intros [Hc Hyear]. apply Hout; assumption.
  - intros year. split.
    + intros Hraise. destruct (c_int year) eqn:Hc; [|reflexivity].
      destruct (Z_lt_dec year 1) as [Hlow|Hlow];
        [rewrite (Hout year Hc (or_introl Hlow)) in Hraise; discriminate|].
      destruct (Z_lt_dec 9999 year) as [Hhigh|Hhigh];
        [rewrite (Hout year Hc (or_intror Hhigh)) in Hraise; discriminate|].
      destruct (Hin year ltac:(lia)) as [total Htotal].
      rewrite Htotal in Hraise. discriminate.
    + apply Hbig.
  - intros Hnow. pose proof (ord2ymd_range (ordinal now) Hnow) as Hr.
    eexists. apply get_yearly_income_in_range. cbn [default]. unfold dt_year.
    destruct (ord2ymd (ordinal now)) as [[y m] d]. cbn. lia.
Qed.

Lemma filter_all_true {A : Type} (f : A -> bool) (l : list A) :
  (forall x, In x l -> f x = true) -> List.filter f l = l.
Proof.
  induction l as [|x l IH]; intros Hf; cbn; [reflexivity|].
  rewrite (Hf x) by (left; reflexivity).
  rewrite IH by (intros y Hy; apply Hf; right; assumption). reflexivity.
Qed.

(** X13. When the text of the date of every record of the store lies
    between the texts of the first instant asked for and of the clock, and
    the index on the date lists the rows in the order in which the table
    holds them, the income of those days is the total income. *)
Theorem recent_income_of_a_recent_store (db : Database) (now : datetime) (days : Z) :
  1 <= ordinal now - days <= MAXORDINAL ->
  1 <= ordinal now <= MAXORDINAL ->
  (forall r, In r (income_records db) ->
     text_leb (naive (mk_dt (ordinal now - days) (micros now))) (row_date r)
       = true /\
     text_leb (row_date r) (naive now) = true) ->
  index_scan (income_records db) = income_records db ->
  get_monthly_income db now days = Ok (get_total_income db).
Proof.
  intros Hstart Hnow Hrows Horder. unfold get_monthly_income.
  rewrite add_days_ok by lia. cbn.
  unfold windowed_total, get_total_income.
  rewrite filter_all_true; [rewrite Horder; reflexivity|].
  intros r Hr. destruct (Hrows r Hr) as [Hs He]. unfold in_window.
  replace (ordinal now + - days) with (ordinal now - days) by lia.
  destruct now as [o us]. cbn [ordinal micros] in *.
  rewrite Hs, He. reflexivity.
Qed.

End WithEngine.

Lemma yearly_income_is_the_calendar_year_witness :
  @get_yearly_income scan_order_engine three_records_db (mk_dt 739004 0) None
  = Ok 21%float.
Proof.
  rewrite (@yearly_income_is_the_calendar_year scan_order_engine three_records_db
             (mk_dt 739004 0) None).
  - vm_compute. reflexivity.
  - vm_compute. split; discriminate.
  - exact three_records_valid.
Defined.

Lemma yearly_income_outside_the_calendar_witness :
  @get_yearly_income scan_order_engine three_records_db (mk_dt 739004 0) (Some 0)
  = Raise ValueError.
Proof.
  apply (proj1 (@yearly_income_outside_the_calendar scan_order_engine
                  three_records_db (mk_dt 739004 0))).
  split; [reflexivity | lia].
Defined.

Lemma recent_income_of_a_recent_store_witness :
  @get_monthly_income scan_order_engine three_records_db (mk_dt 739004 0) 30
  = Ok (@get_total_income scan_order_engine three_records_db).
Proof.
  apply (@recent_income_of_a_recent_store scan_order_engine).
  - unfold MAXORDINAL. cbn. lia.
  - unfold MAXORDINAL. cbn. lia.
  - cbn. intros r [<-|[<-|[<-|[]]]]; split; reflexivity.
  - reflexivity.
Defined.

End WindowProps.

(** * The daily trend outside the range it fills *)

Module TrendEdges.
Import Calendar CalendarFacts PyFloat Models Db ListFacts TrendProps Examples
  SampleFacts.

Section WithEngine.
Context `{Engine}.

(** Started on a day up to 9999-12-31 with that day as the last, the loop
    runs into the end of the calendar when it steps past the last day. *)
Lemma fill_days_overflows data end_date (n : nat) :
  forall current dates values,
    micros current = micros end_date ->
    1 <= ordinal current ->
    ordinal end_date = MAXORDINAL ->
    ordinal end_date - ordinal current = Z.of_nat n ->
    fill_days data end_date current dates values = Raise OverflowError.
Proof.
  induction n as [|n IH]; intros current dates values Hus Hlo Hend Hn;
    rewrite fill_days_unfold; unfold dt_leb; rewrite Hus.
  - replace (_ || _) with true by lia.
    unfold add_days. rewrite Hend in Hn. unfold MAXORDINAL in *.
    replace (_ && _) with false by lia. reflexivity.
  - replace (_ || _) with true by lia.
    rewrite add_days_ok by (unfold MAXORDINAL in *; lia).
    apply IH; cbn [ordinal micros]; lia.
Qed.

(** X14. Outside the range in which it fills a window, [get_daily_trend]
    returns two empty lists for a negative number of days, and raises
    [OverflowError] when the first day would lie before 0001-01-01, when it
    would lie after 9999-12-31, and always on 9999-12-31, where the loop
    steps past the last day of the calendar. *)
Theorem daily_trend_outside_its_range (db : Database) (now : datetime) (N : Z) :
  valid_datetime now ->
  (N < 0 -> ordinal now - N <= MAXORDINAL ->
     get_daily_trend db now N = Ok ([], [])) /\
  (N < 0 -> MAXORDINAL < ordinal now - N ->
     get_daily_trend db now N = Raise OverflowError) /\
  (ordinal now <= N -> get_daily_trend db now N = Raise OverflowError) /\
  (0 <= N < ordinal now -> ordinal now = MAXORDINAL ->
     get_daily_trend db now N = Raise OverflowError).
Proof.
  intros [[Hlo Hhi] Hus]. unfold get_daily_trend. repeat split.
  - intros HN Hfit. rewrite add_days_ok by lia. cbn.
    rewrite fill_days_unfold. unfold dt_leb. cbn [ordinal micros].
    replace (_ || _) with false by lia. reflexivity.
  - intros HN Hfar. unfold add_days, MAXORDINAL in *.
    replace (_ && _) with false by lia. reflexivity.
  - intros HN. unfold add_days, MAXORDINAL in *.
    replace (_ && _) with false by lia. reflexivity.
  - intros HN Hlast. rewrite add_days_ok by lia. cbn.
    apply (fill_days_overflows _ _ (Z.to_nat N)); cbn [ordinal micros]; lia.
Qed.

End WithEngine.

Lemma daily_trend_outside_its_range_witness :
  @get_daily_trend scan_order_engine three_records_db (mk_dt 739004 43200000000) (-1)
  = Ok ([], []).
Proof.
  apply (@daily_trend_outside_its_range scan_order_engine three_records_db
           (mk_dt 739004 43200000000) (-1) sample_now_valid).
  - lia.
  - unfold MAXORDINAL. cbn. lia.
Defined.

End TrendEdges.

(** * Properties of the settings and of the budget *)

Module SettingsProps.
Import Calendar PyFloat Models Db Analysis Examples Samples.


Section WithRuntime.
Context `{Engine} `{Repr}.

(** X16. A budget that was saved is the budget read, as long as [float]
    reads the text that [str] wrote of it; a stored text that [float] does
    not read gives the budget 0.0, not an error. Saving a budget leaves the
    records alone. *)
Theorem budget_round_trip (db : Database) (amount : float) :
  (py_float (py_str amount) = Some amount ->
   get_monthly_budget (set_monthly_budget db amount).1 = Ok amount) /\
  (forall text, py_float text = None ->
   get_monthly_budget (set_setting db "monthly_budget" text).1 = Ok 0%float) /\
  (set_monthly_budget db amount).2 = true /\
  income_records (set_monthly_budget db amount).1 = income_records db.
Proof.
  unfold set_monthly_budget, get_monthly_budget, get_setting, set_setting.
  cbn [fst snd app_settings income_records]. repeat split.
  - intros Hread. rewrite lookup_insert_eq, Hread. reflexivity.
  - intros text Hread. rewrite lookup_insert_eq, Hread. reflexivity.
Qed.

End WithRuntime.


Lemma budget_round_trip_witness :
  @get_monthly_budget decimal_engine
    (@set_monthly_budget decimal_repr one_record_db 100%float).1 = Ok 100%float.
Proof.
  apply (@budget_round_trip decimal_engine decimal_repr one_record_db 100%float).
  reflexivity.
Defined.

End SettingsProps.

(** * Properties of the distribution over categories *)

Module DistributionProps.
Import Calendar PyFloat Models Db Analysis ListFacts.

Section WithEngine.
Context `{Engine}.







End WithEngine.

End DistributionProps.

(** * The forecast through the month *)

Module ForecastMonth.
Import Calendar CalendarFacts CalendarInverse PyFloat Models Db FloatFacts
  ListFacts ForecastProps Examples SampleFacts.

Lemma ltb_asym x y : (x <? y)%float = true -> (y <? x)%float = false.
Proof.
  rewrite !ltb_spec. unfold SFltb.
  rewrite (SFcompare_antisym (Prim2SF x) (Prim2SF y)).
  destruct (SFcompare (Prim2SF x) (Prim2SF y)) as [[]|]; cbn; congruence.
Qed.

(** Nine tenths of a budget above 0 are not below 0. *)
Lemma mul_09_not_negative b :
  (0 <? b)%float = true -> (b * F0_9 <? 0)%float = false.
Proof.
  rewrite !ltb_spec, mul_spec, Prim2SF_F0_9.
  change (Prim2SF 0) with (S754_zero false).
  destruct (Prim2SF b) as [s|s| |s m e]; cbn [SFltb SFcompare]; try discriminate.
  - destruct s; [discriminate|]. intros _. reflexivity.
  - destruct s; [discriminate|]. intros _.
    unfold SF64mul. cbn [SFmul xorb]. unfold binary_round_aux.
    do 2 match goal with
         | |- context [shr_fexp ?p ?q ?M ?E ?l] =>
             destruct (shr_fexp p q M E l) as [? ?]; cbv beta iota
         end.
    destruct (shr_m _); [reflexivity| |reflexivity].
    destruct (_ <=? _); reflexivity.
Qed.

(** Against a prediction of 0.0 every budget is safe. *)
Lemma nothing_predicted_is_safe budget : budget_status budget 0 = "safe"%string.
Proof.
  unfold budget_status. destruct (0 <? budget)%float eqn:Hb; [|reflexivity].
  rewrite (ltb_asym _ _ Hb), (mul_09_not_negative _ Hb). reflexivity.
Qed.

Ltac each_day d :=
  let Hc := fresh "Hc" in
  assert (Hc : d = 0 \/ d = 1 \/ d = 2 \/ d = 3 \/ d = 4 \/ d = 5 \/ d = 6 \/ d = 7
               \/ d = 8 \/ d = 9 \/ d = 10 \/ d = 11 \/ d = 12 \/ d = 13 \/ d = 14
               \/ d = 15 \/ d = 16 \/ d = 17 \/ d = 18 \/ d = 19 \/ d = 20
               \/ d = 21 \/ d = 22 \/ d = 23 \/ d = 24 \/ d = 25 \/ d = 26
               \/ d = 27 \/ d = 28 \/ d = 29 \/ d = 30 \/ d = 31) by lia;
  decompose [or] Hc; clear Hc; subst d.

Lemma blend_of_nothing d :
  1 <= d <= 31 -> blended_daily_avg d 0 0 = 0%float.
Proof. intros Hd. each_day d; try lia; vm_compute; reflexivity. Qed.

Lemma nothing_extrapolated n :
  0 <= n <= 30 -> (0 + 0 * float_of_int n)%float = 0%float.
Proof. intros Hn. each_day n; try lia; vm_compute; reflexivity. Qed.

Section WithEngine.
Context `{Engine}.

(** The forecast at a [now] that is not in December 9999, written out. *)
Lemma forecast_run (db : Database) (now : datetime) (y m d : Z) (budget : float) :
  valid_datetime now ->
  ord2ymd (ordinal now) = (y, m, d) ->
  ~ (y = 9999 /\ m = 12) ->
  get_monthly_budget db = Ok budget ->
  let spent := windowed_total db (mk_dt (ymd2ord y m 1) 0) now in
  let daily := blended_daily_avg d spent (get_daily_average db) in
  let total := (spent + daily * float_of_int (days_in_month y m - d))%float in
  get_spending_forecast db now =
  Ok {| predicted_total := total;
        remaining_days := days_in_month y m - d;
        daily_average := daily;
        status := budget_status budget total;
        current_month_spending := spent |}.
Proof.
  intros [Hord Hus] Eymd Hdec Hbudget.
  pose proof (ord2ymd_range (ordinal now) Hord) as Hrange.
  unfold get_spending_forecast, dt_year, dt_month, dt_day.
  rewrite Eymd in *. cbn [fst snd] in *. destruct Hrange as (Hy & Hm & Hd).
  pose proof (days_in_month_bounds y m Hm) as Hlen.
  set (y' := if m =? 12 then y + 1 else y).
  set (m' := if m =? 12 then 1 else m + 1).
  assert (Hnext : (if m =? 12 then new_datetime (y + 1) 1 1 (micros now)
                   else new_datetime y (m + 1) 1 (micros now))
                  = Ok (mk_dt (ymd2ord y' m' 1) (micros now))).
  { unfold y', m'. destruct (Z.eqb_spec m 12) as [E|E].
    - apply new_datetime_ok; [lia|lia|].
      pose proof (days_in_month_bounds (y + 1) 1 ltac:(lia)). lia.
    - apply new_datetime_ok; [lia|lia|].
      pose proof (days_in_month_bounds y (m + 1) ltac:(lia)). lia. }
  rewrite Hnext. cbn [mbind result_bind].
  pose proof (pred_next_month y m Hm) as Hpred. fold y' m' in Hpred.
  pose proof (ymd2ord_bounds y m (days_in_month y m) Hy Hm ltac:(lia)) as Hb.
  assert (Hy' : 1 <= y' <= 9999) by (unfold y'; destruct (Z.eqb_spec m 12); lia).
  assert (Hm' : 1 <= m' <= 12) by (unfold m'; destruct (Z.eqb_spec m 12); lia).
  pose proof (days_in_month_bounds y' m' Hm') as Hlen'.
  pose proof (ymd2ord_bounds y' m' 1 Hy' Hm' ltac:(lia)) as Hb'.
  rewrite add_days_ok by (cbn [ordinal]; lia).
  cbn [mbind result_bind ordinal micros].
  replace (ymd2ord y' m' 1 + -1) with (ymd2ord y' m' 1 - 1) by lia.
  pose proof (last_day_of_month y m ltac:(lia) Hm) as Hlast.
  fold y' m' in Hlast. rewrite Hlast. cbn [snd].
  rewrite (new_datetime_ok y m 1 0) by lia.
  cbn [mbind result_bind]. rewrite Hbudget. reflexivity.
Qed.

(** X18. The days that the forecast counts as remaining are between 0 and
    30, and they are 0 exactly on the last day of a month, the day whose
    morrow is the first of a month. *)
Theorem forecast_remaining_days_range (db : Database) (now : datetime) :
  valid_datetime now ->
  ~ (dt_year now = 9999 /\ dt_month now = 12) ->
  exists f : Forecast,
    get_spending_forecast db now = Ok f /\
    0 <= remaining_days f <= 30 /\
    remaining_days f + dt_day now = days_in_month (dt_year now) (dt_month now) /\
    (remaining_days f = 0 <-> dt_day (mk_dt (ordinal now + 1) (micros now)) = 1).
Proof.
  intros Hnow Hdec. pose proof Hnow as [Hord Hus].
  pose proof (ymd2ord_ord2ymd (ordinal now) ltac:(lia)) as Hinv.
  pose proof (ord2ymd_range (ordinal now) Hord) as Hrange.
  unfold dt_year, dt_month, dt_day in *.
  destruct (ord2ymd (ordinal now)) as [[y m] d] eqn:Eymd. cbn [fst snd] in *.
  destruct Hinv as (_ & Hm & Hd & Hn). destruct Hrange as (Hy & _ & _).
  destruct (get_monthly_budget_ok db) as [budget Hbudget].
  rewrite (forecast_run db now y m d budget Hnow Eymd Hdec Hbudget). cbv zeta.
  eexists. split; [reflexivity|]. cbn [remaining_days ordinal].
  pose proof (days_in_month_bounds y m Hm) as Hlen.
  split; [lia|]. split; [lia|].
  destruct (Z.eq_dec d (days_in_month y m)) as [Elast|Emid].
  - pose proof (pred_next_month y m Hm) as Hpred.
    set (y' := if m =? 12 then y + 1 else y) in *.
    set (m' := if m =? 12 then 1 else m + 1) in *.
    assert (Hm' : 1 <= m' <= 12) by (unfold m'; destruct (Z.eqb_spec m 12); lia).
    pose proof (days_in_month_bounds y' m' Hm').
    replace (ordinal now + 1) with (ymd2ord y' m' 1) by (rewrite <- Elast in Hpred; lia).
    rewrite ord2ymd_ymd2ord; [cbn; lia| |lia|lia].
    unfold y'. destruct (m =? 12); lia.
  - replace (ordinal now + 1) with (ymd2ord y m (d + 1)) by (unfold ymd2ord in *; lia).
    rewrite ord2ymd_ymd2ord by lia. cbn [snd]. lia.
Qed.

(** X19. On a store without records the forecast predicts 0.0 at a daily
    average of 0.0, and the status is "safe" whatever budget is set. *)
Theorem forecast_of_an_empty_store (db : Database) (now : datetime) :
  valid_datetime now ->
  ~ (dt_year now = 9999 /\ dt_month now = 12) ->
  income_records db = [] ->
  exists f : Forecast,
    get_spending_forecast db now = Ok f /\
    current_month_spending f = 0%float /\
    daily_average f = 0%float /\
    predicted_total f = 0%float /\
    status f = "safe"%string.
Proof.
  intros Hnow Hdec Hempty. pose proof Hnow as [Hord Hus].
  pose proof (ymd2ord_ord2ymd (ordinal now) ltac:(lia)) as Hinv.
  unfold dt_year, dt_month in *.
  destruct (ord2ymd (ordinal now)) as [[y m] d] eqn:Eymd. cbn [fst snd] in *.
  destruct Hinv as (_ & Hm & Hd & _).
  destruct (get_monthly_budget_ok db) as [budget Hbudget].
  rewrite (forecast_run db now y m d budget Hnow Eymd Hdec Hbudget). cbv zeta.
  eexists. split; [reflexivity|].
  cbn [current_month_spending daily_average predicted_total status].
  pose proof (days_in_month_bounds y m Hm) as Hlen.
  assert (Hspent : windowed_total db (mk_dt (ymd2ord y m 1) 0) now = 0%float).
  { unfold windowed_total. rewrite Hempty. reflexivity. }
  assert (Hhist : get_daily_average db = 0%float).
  { unfold get_daily_average, count_distinct_days. rewrite Hempty. reflexivity. }
  rewrite Hspent, Hhist, blend_of_nothing by lia.
  rewrite nothing_extrapolated by lia.
  repeat split. apply nothing_predicted_is_safe.
Qed.

End WithEngine.

Lemma forecast_remaining_days_range_witness :
  exists f : Forecast,
    @get_spending_forecast scan_order_engine three_records_db
       (mk_dt 739004 43200000000) = Ok f /\
    0 <= remaining_days f <= 30.
Proof.
  destruct (@forecast_remaining_days_range scan_order_engine three_records_db
              (mk_dt 739004 43200000000) sample_now_valid)
    as (f & Hrun & Hrange & _).
  - intros [Hyear _]. vm_compute in Hyear. discriminate Hyear.
  - exists f. split; assumption.
Defined.

Lemma forecast_of_an_empty_store_witness :
  exists f : Forecast,
    @get_spending_forecast scan_order_engine empty_db
       (mk_dt 739004 43200000000) = Ok f /\
    predicted_total f = 0%float /\ status f = "safe"%string.
Proof.
  destruct (@forecast_of_an_empty_store scan_order_engine empty_db
              (mk_dt 739004 43200000000) sample_now_valid)
    as (f & Hrun & _ & _ & Htotal & Hstatus).
  - intros [Hyear _]. vm_compute in Hyear. discriminate Hyear.
  - reflexivity.
  - exists f. split; [assumption|]. split; assumption.
Defined.

End ForecastMonth.

(** * Properties of the ranges of the quick filters *)

Module RangeProps.
Import Calendar CalendarFacts CalendarInverse Utils SampleFacts.

(** Midnight of a day of the calendar is that day at 0 microseconds. *)
Lemma get_beijing_date_ok (now : datetime) :
  1 <= ordinal now <= MAXORDINAL ->
  get_beijing_date now = Ok (mk_dt (ordinal now) 0).
Proof.
  intros Hord. unfold get_beijing_date, dt_year, dt_month, dt_day.
  pose proof (ymd2ord_ord2ymd (ordinal now) ltac:(lia)) as Hinv.
  pose proof (ord2ymd_range (ordinal now) Hord) as Hrange.
  destruct (ord2ymd (ordinal now)) as [[y m] d]. cbn [fst snd].
  destruct Hinv as (_ & Hm & Hd & Hn). destruct Hrange as (Hy & _ & _).
  rewrite new_datetime_ok by assumption. rewrite Hn. reflexivity.
Qed.

(** X20. The week of the quick filter runs from the Monday at 00:00:00 to
    the Sunday at 23:59:59 of the week that holds today. It is computed for
    every day up to 9999-12-26; in the days after, the Sunday would lie
    outside the calendar and the call raises [OverflowError]. *)
Theorem week_range_is_monday_to_sunday (now : datetime) :
  1 <= ordinal now <= MAXORDINAL ->
  (ordinal now <= MAXORDINAL - 5 ->
   exists start : datetime,
     get_week_range now = Ok (start, mk_dt (ordinal start + 6) 86399000000) /\
     weekday start = 0 /\ micros start = 0 /\
     ordinal start <= ordinal now <= ordinal start + 6) /\
  (MAXORDINAL - 5 < ordinal now -> get_week_range now = Raise OverflowError).
Proof.
  intros Hord. unfold get_week_range. rewrite get_beijing_date_ok by assumption.
  cbn [mbind result_bind]. unfold add_timedelta, weekday, MICROS_PER_DAY, MAXORDINAL in *.
  cbn [ordinal micros].
  change (0 / 86400000000) with 0. change (0 mod 86400000000) with 0.
  change (86399000000 / 86400000000) with 0.
  change (86399000000 mod 86400000000) with 86399000000.
  change (0 + 0) with 0. change (0 / 86400000000) with 0.
  change (0 mod 86400000000) with 0.
  pose proof (Z.div_mod (ordinal now + 6) 7 ltac:(lia)) as Hdm.
  pose proof (Z.mod_pos_bound (ordinal now + 6) 7 ltac:(lia)) as Hbound.
  set (w := (ordinal now + 6) mod 7) in *.
  set (q := (ordinal now + 6) / 7) in *.
  replace (Z.abs (- w + 0) <=? 999999999) with true by lia.
  replace (ordinal now + (- w + 0) + 0) with (7 * q - 6) by lia.
  replace ((1 <=? 7 * q - 6) && (7 * q - 6 <=? 3652059)) with true by lia.
  cbn [mbind result_bind ordinal micros].
  change (Z.abs (6 + 0) <=? 999999999) with true. cbv iota.
  change (0 + 86399000000) with 86399000000.
  change (86399000000 / 86400000000) with 0.
  change (86399000000 mod 86400000000) with 86399000000.
  split.
  - intros Hearly.
    replace ((1 <=? 7 * q - 6 + (6 + 0) + 0) && (7 * q - 6 + (6 + 0) + 0 <=? 3652059))
      with true by lia.
    cbn [mbind result_bind].
    exists (mk_dt (7 * q - 6) 0). cbn [ordinal micros]. split.
    + do 3 f_equal. lia.
    + split; [|lia].
      replace (7 * q - 6 + 6) with (q * 7) by lia. apply Z.mod_mul. lia.
  - intros Hlate.
    replace ((1 <=? 7 * q - 6 + (6 + 0) + 0) && (7 * q - 6 + (6 + 0) + 0 <=? 3652059))
      with false by lia.
    reflexivity.
Qed.


Lemma add_one_second_less (d : datetime) :
  1 < ordinal d <= MAXORDINAL -> micros d = 0 ->
  add_timedelta d 0 (-1000000) = Ok (mk_dt (ordinal d - 1) 86399000000).
Proof.
  intros Hord Hus. unfold add_timedelta, MICROS_PER_DAY, MAXORDINAL in *.
  rewrite Hus.
  change (-1000000 / 86400000000) with (-1).
  change (-1000000 mod 86400000000) with 86399000000.
  change (Z.abs (0 + -1) <=? 999999999) with true. cbv iota.
  change (0 + 86399000000) with 86399000000.
  change (86399000000 / 86400000000) with 0.
  change (86399000000 mod 86400000000) with 86399000000.
  replace (_ && _) with true by lia. do 2 f_equal. lia.
Qed.

(** X21. The month of the quick filter runs from the first day of the
    month of today at 00:00:00 to its last day at 23:59:59, and today
    lies in it up to the last second of the month; in December 9999 the
    call raises [ValueError]. *)
Theorem month_range_is_the_month (now : datetime) :
  valid_datetime now ->
  let y := dt_year now in
  let m := dt_month now in
  (~ (y = 9999 /\ m = 12) ->
   exists start end_ : datetime,
     get_month_range now = Ok (start, end_) /\
     start = mk_dt (ymd2ord y m 1) 0 /\
     end_ = mk_dt (ymd2ord y m (days_in_month y m)) 86399000000 /\
     ord2ymd (ordinal start) = (y, m, 1) /\
     ord2ymd (ordinal end_) = (y, m, days_in_month y m) /\
     dt_leb start now = true /\
     (dt_leb now end_ = false <->
      dt_day now = days_in_month y m /\ 86399000000 < micros now)) /\
  (y = 9999 /\ m = 12 -> get_month_range now = Raise ValueError).
Proof.
  intros [Hord Hus] y m. unfold get_month_range.
  rewrite get_beijing_date_ok by assumption. cbn [mbind result_bind].
  pose proof (ymd2ord_ord2ymd (ordinal now) ltac:(lia)) as Hinv.
  pose proof (ord2ymd_range (ordinal now) Hord) as Hrange.
  unfold y, m, dt_year, dt_month, dt_day. clear y m. cbn [ordinal micros].
  destruct (ord2ymd (ordinal now)) as [[y m] d] eqn:Eymd. cbn [fst snd].
  destruct Hinv as (_ & Hm & Hd & Hn). destruct Hrange as (Hy & _ & _).
  pose proof (days_in_month_bounds y m Hm) as Hlen.
  rewrite (new_datetime_ok y m 1 0) by lia. cbn [mbind result_bind].
  split.
  - intros Hdec.
    set (y' := if m =? 12 then y + 1 else y).
    set (m' := if m =? 12 then 1 else m + 1).
    assert (Hnext : (if m =? 12 then new_datetime (y + 1) 1 1 0
                     else new_datetime y (m + 1) 1 0)
                    = Ok (mk_dt (ymd2ord y' m' 1) 0)).
    { unfold y', m'. destruct (Z.eqb_spec m 12) as [E|E].
      - apply new_datetime_ok; [lia|lia|].
        pose proof (days_in_month_bounds (y + 1) 1 ltac:(lia)). lia.
      - apply new_datetime_ok; [lia|lia|].
        pose proof (days_in_month_bounds y (m + 1) ltac:(lia)). lia. }
    rewrite Hnext. cbn [mbind result_bind].
    pose proof (pred_next_month y m Hm) as Hpred. fold y' m' in Hpred.
    pose proof (ymd2ord_bounds y m (days_in_month y m) Hy Hm ltac:(lia)) as Hb.
    pose proof (ymd2ord_bounds y m 1 Hy Hm ltac:(lia)) as Hb1.
    assert (Hy' : 1 <= y' <= 9999) by (unfold y'; destruct (Z.eqb_spec m 12); lia).
    assert (Hm' : 1 <= m' <= 12) by (unfold m'; destruct (Z.eqb_spec m 12); lia).
    pose proof (days_in_month_bounds y' m' Hm') as Hlen'.
    pose proof (ymd2ord_bounds y' m' 1 Hy' Hm' ltac:(lia)) as Hb'.
    rewrite add_one_second_less by (cbn [ordinal micros]; lia).
    cbn [mbind result_bind ordinal]. rewrite Hpred.
    eexists _, _. split; [reflexivity|]. split; [reflexivity|].
    split; [reflexivity|]. cbn [ordinal].
    split; [apply ord2ymd_ymd2ord; lia|].
    split; [apply ord2ymd_ymd2ord; lia|].
    unfold dt_leb. cbn [ordinal micros]. unfold ymd2ord in *.
    unfold MICROS_PER_DAY in Hus. split; [lia|]. lia.
  - intros [-> ->]. change (12 =? 12) with true. cbv iota.
    rewrite (new_datetime_bad_year (9999 + 1) 1 1 0 eq_refl eq_refl eq_refl)
      by lia.
    reflexivity.
Qed.

(** X22. The year of the quick filter runs from 1 January at 00:00:00 to
    31 December at 23:59:59 of the year of today; it is computed at every
    time of the calendar, and today lies in it up to the last second of
    the year. *)
Theorem year_range_is_the_year (now : datetime) :
  valid_datetime now ->
  let y := dt_year now in
  exists start end_ : datetime,
    get_year_range now = Ok (start, end_) /\
    start = mk_dt (ymd2ord y 1 1) 0 /\
    end_ = mk_dt (ymd2ord y 12 31) 86399000000 /\
    ord2ymd (ordinal start) = (y, 1, 1) /\
    ord2ymd (ordinal end_) = (y, 12, 31) /\
    dt_leb start now = true /\
    (dt_leb now end_ = false <->
     dt_month now = 12 /\ dt_day now = 31 /\ 86399000000 < micros now).
Proof.
  intros [Hord Hus] y. unfold get_year_range.
  rewrite get_beijing_date_ok by assumption. cbn [mbind result_bind].
  pose proof (ymd2ord_ord2ymd (ordinal now) ltac:(lia)) as Hinv.
  pose proof (ord2ymd_range (ordinal now) Hord) as Hrange.
  pose proof (year_of_ordinal_iff (ordinal now) y ltac:(lia)) as Hyear.
  unfold y, dt_year, dt_month, dt_day in *. clear y. cbn [ordinal micros].
  destruct (ord2ymd (ordinal now)) as [[y m] d] eqn:Eymd. cbn [fst snd] in *.
  destruct Hinv as (_ & Hm & Hd & Hn). destruct Hrange as (Hy & _ & _).
  assert (Hin : days_before_year y < ordinal now <= days_before_year (y + 1))
    by (apply Hyear; [lia | reflexivity]).
  assert (H1 : days_in_month y 1 = 31) by reflexivity.
  assert (H12 : days_in_month y 12 = 31) by reflexivity.
  rewrite (new_datetime_ok y 1 1 0) by lia. cbn [mbind result_bind].
  change (0 mod 1000000) with 0. change (86399000000 + 0) with 86399000000.
  rewrite (new_datetime_ok y 12 31) by lia. cbn [mbind result_bind].
  eexists _, _. split; [reflexivity|]. split; [reflexivity|].
  split; [reflexivity|]. cbn [ordinal].
  split; [apply ord2ymd_ymd2ord; lia|].
  split; [apply ord2ymd_ymd2ord; lia|].
  assert (Hjan : ymd2ord y 1 1 = days_before_year y + 1).
  { unfold ymd2ord, days_before_month. change (DAYS_BEFORE_MONTH 1) with 0.
    change (2 <? 1) with false. cbn [andb]. lia. }
  assert (Hdec : ymd2ord y 12 31 = days_before_year (y + 1)).
  { rewrite days_before_year_succ. unfold ymd2ord, days_before_month.
    change (DAYS_BEFORE_MONTH 12) with 334. change (2 <? 12) with true.
    cbn [andb]. destruct (is_leap y); lia. }
  unfold dt_leb. cbn [ordinal micros]. rewrite Hjan, Hdec.
  unfold MICROS_PER_DAY in Hus. split; [lia|].
  assert (Hlast : ordinal now = days_before_year (y + 1) <-> m = 12 /\ d = 31).
  { rewrite <- Hdec, <- Hn. split.
    - intros E. pose proof (ord2ymd_ymd2ord y m d ltac:(lia) Hm Hd) as E1.
      rewrite E in E1. rewrite ord2ymd_ymd2ord in E1 by lia.
      injection E1 as <- <-. split; reflexivity.
    - intros [-> ->]. reflexivity. }
  lia.
Qed.


(** X23. The range of the last [days] days runs from midnight of the day
    that lies [days] days back to [now] itself; when that day is not a day
    of the calendar the call raises [OverflowError]. *)
Theorem recent_days_range_starts_at_midnight (now : datetime) (days : Z) :
  valid_datetime now ->
  (1 <= ordinal now - days <= MAXORDINAL ->
   get_recent_days_range now days = Ok (mk_dt (ordinal now - days) 0, now)) /\
  (ordinal now - days < 1 \/ MAXORDINAL < ordinal now - days ->
   get_recent_days_range now days = Raise OverflowError).
Proof.
  intros [Hord Hus]. unfold get_recent_days_range. split.
  - intros Hfit. rewrite add_days_ok by lia. cbn [mbind result_bind].
    replace (ordinal now + - days) with (ordinal now - days) by lia.
    pose proof (get_beijing_date_ok (mk_dt (ordinal now - days) (micros now))
                  ltac:(cbn [ordinal]; lia)) as Hmid.
    unfold get_beijing_date in Hmid. rewrite Hmid. reflexivity.
  - intros Hout. unfold add_days, MAXORDINAL in *.
    replace (_ && _) with false by lia. reflexivity.
Qed.

Lemma week_range_is_monday_to_sunday_witness :
  exists start : datetime,
    get_week_range (mk_dt 739004 43200000000)
      = Ok (start, mk_dt (ordinal start + 6) 86399000000) /\
    weekday start = 0 /\ ordinal start <= 739004 <= ordinal start + 6.
Proof.
  destruct (week_range_is_monday_to_sunday (mk_dt 739004 43200000000))
    as [Hweek _].
  - unfold MAXORDINAL. cbn. lia.
  - destruct Hweek as (start & Hrun & Hmonday & _ & Hin);
      [unfold MAXORDINAL; cbn; lia|].
    exists start. split; [assumption|]. split; assumption.
Defined.

Lemma month_range_is_the_month_witness :
  get_month_range (mk_dt 739004 43200000000)
  = Ok (mk_dt 738977 0, mk_dt 739006 86399000000).
Proof.
  destruct (month_range_is_the_month (mk_dt 739004 43200000000) sample_now_valid)
    as [Hmonth _].
  destruct Hmonth as (start & end_ & Hrun & -> & -> & _).
  - intros [Hyear _]. vm_compute in Hyear. discriminate Hyear.
  - rewrite Hrun. vm_compute. reflexivity.
Defined.

Lemma year_range_is_the_year_witness :
  get_year_range (mk_dt 739004 43200000000)
  = Ok (mk_dt 738886 0, mk_dt 739251 86399000000).
Proof.
  destruct (year_range_is_the_year (mk_dt 739004 43200000000) sample_now_valid)
    as (start & end_ & Hrun & -> & -> & _).
  rewrite Hrun. vm_compute. reflexivity.
Defined.

Lemma recent_days_range_starts_at_midnight_witness :
  get_recent_days_range (mk_dt 739004 43200000000) 30
  = Ok (mk_dt 738974 0, mk_dt 739004 43200000000).
Proof.
  apply (recent_days_range_starts_at_midnight (mk_dt 739004 43200000000) 30
           sample_now_valid).
  unfold MAXORDINAL. cbn. lia.
Defined.

End RangeProps.

(** * Reading what the writes left *)

Module ReadProps.
Import Calendar CalendarFacts PyFloat Sqlite Models Db Analysis FloatFacts ListFacts
  StoreProps AggregationProps TrendProps StoreInvariants ListingProps
  WindowProps DistributionProps Examples Samples SampleFacts.

Lemma find_unique (i : Z) (rows : list Row) (r : Row) :
  NoDup (List.map row_id rows) -> In r rows -> row_id r = i ->
  List.find (fun r' => row_id r' =? i) rows = Some r.
Proof.
  induction rows as [|r0 rows IH]; cbn [List.map List.find]; [intros _ []|].
  rewrite NoDup_cons. intros [Hr0 Hnd] [->|Hin] Hr.
  - replace (row_id r =? i) with true by lia. reflexivity.
  - destruct (row_id r0 =? i) eqn:E.
    + exfalso. apply Hr0. rewrite list_elem_of_In. apply in_map_iff.
      exists r. split; [lia | assumption].
    + apply IH; assumption.
Qed.

Lemma find_id_inv (i : Z) (rows : list Row) (r : Row) :
  List.find (fun r' => row_id r' =? i) rows = Some r -> In r rows /\ row_id r = i.
Proof. intros Hfind. apply find_some in Hfind as [Hin Hr]. split; [assumption|lia]. Qed.

Lemma find_id_none (i : Z) (rows : list Row) :
  List.find (fun r' => row_id r' =? i) rows = None <->
  forall r, In r rows -> row_id r <> i.
Proof.
  split.
  - intros Hfind r Hr E. pose proof (find_none _ _ Hfind r Hr) as Hne. cbn in Hne. lia.
  - intros Hnone. destruct (List.find _ rows) as [r|] eqn:E; [|reflexivity].
    apply find_id_inv in E as [Hin Hr]. destruct (Hnone r Hin Hr).
Qed.

(** X24. With distinct ids, fetching by an id that is a 64-bit integer
    returns [None] exactly when no row carries the id, the record of the
    row that carries it when its amount is not negative, and raises
    [ValueError] when it is. Fetching by an integer outside 64 bits raises
    [OverflowError], on every store whose own ids are 64-bit integers. *)
Theorem fetch_by_id_finds_the_row (db : Database) (record_id : Z) :
  ids_ok db ->
  (sqlite_int record_id = true ->
   (get_income_by_id db record_id = Ok None <->
    forall r, In r (income_records db) -> row_id r <> record_id) /\
   (forall rec, get_income_by_id db record_id = Ok (Some rec) <->
      exists r, In r (income_records db) /\ row_id r = record_id /\
                (row_amount r <? 0)%float = false /\ rec = record_of_row r) /\
   (get_income_by_id db record_id = Raise ValueError <->
      exists r, In r (income_records db) /\ row_id r = record_id /\
                (row_amount r <? 0)%float = true)) /\
  (sqlite_int record_id = false ->
   sqlite_int (sqlite_sequence db) = true ->
   sqlite_int (max_rowid (income_records db)) = true ->
   get_income_by_id db record_id = Raise OverflowError).
Proof.
  intros [Hnd _]. split; cycle 1.
  { intros Hid Hseq Hmax. unfold get_income_by_id.
    rewrite (binds_int db record_id Hseq Hmax), Hid. reflexivity. }
  intros Hid. unfold get_income_by_id. rewrite (binds_of_int db record_id Hid).
  destruct (List.find _ (income_records db)) as [r|] eqn:Efind.
  - pose proof (find_id_inv _ _ _ Efind) as [Hin Hr].
    assert (Hsame : forall r', In r' (income_records db) -> row_id r' = record_id ->
                      r' = r).
    { intros r' Hin' Hr'.
      pose proof (find_unique record_id _ r' Hnd Hin' Hr') as E. congruence. }
    destruct (from_db_row_cases r) as [[-> Ha]|[-> Ha]]; cbn [mbind result_bind].
    + split; [|split].
      * split; [discriminate|]. intros Hnone. destruct (Hnone r Hin Hr).
      * intros rec. split.
        -- intros E.
           assert (E' : Some rec = Some (record_of_row r)) by congruence.
           exists r. split; [assumption|]. split; [assumption|].
           split; [assumption|]. congruence.
        -- intros (r' & Hin' & Hr' & _ & ->). rewrite (Hsame r' Hin' Hr'). reflexivity.
      * split; [discriminate|]. intros (r' & Hin' & Hr' & Ha').
        rewrite (Hsame r' Hin' Hr') in Ha'. congruence.
    + split; [|split].
      * split; [discriminate|]. intros Hnone. destruct (Hnone r Hin Hr).
      * intros rec. split; [discriminate|].
        intros (r' & Hin' & Hr' & Ha' & _).
        rewrite (Hsame r' Hin' Hr') in Ha'. congruence.
      * split; [|reflexivity]. intros _. exists r. auto.
  - pose proof (proj1 (find_id_none _ _) Efind) as Hnone. clear Efind.
    rename Hnone into Efind. split; [|split].
    + split; [intros _; exact Efind | reflexivity].
    + intros rec. split; [discriminate|].
      intros (r & Hin & Hr & _). destruct (Efind r Hin Hr).
    + split; [discriminate|]. intros (r & Hin & Hr & _). destruct (Efind r Hin Hr).
Qed.




Section WithEngine.
Context `{Engine}.



End WithEngine.

Lemma fetch_by_id_finds_the_row_witness :
  get_income_by_id three_records_db 9 = Ok None.
Proof.
  apply (fetch_by_id_finds_the_row three_records_db 9 three_records_ids_ok).
  - reflexivity.
  - cbn. intros r [<-|[<-|[<-|[]]]]; cbn; lia.
Defined.



End ReadProps.
